(** * Enhanced integration manager

    A shallow embedding of [backend/services/enhanced_integration_manager.py]
    (class [EnhancedIntegrationManager]) and the properties of its
    quality-violation handling, event derivation, sport attribution, cache
    lifetimes, read path and response-time metric.

    Conventions of the embedding:
    - Python values that travel through the manager (feed payloads, cached
      values) are values of [PyVal]; text is a [string] of ASCII characters.
    - A coroutine is run to completion when awaited: the embedding is
      sequential, and [await] is ordinary sequencing.
    - An exception is an instance of Python's [Exception], the class every
      [except Exception] clause of the source catches.
    - Calls to [logger] neither raise nor change any state the manager reads;
      they are left out.
    - A collaborator acts on its own state while it is called. A callback
      the manager handed it (the alert callback of the monitor, the push
      callback of the feed) is taken to be invoked between the manager's
      calls, as a call of its own, and not in the middle of one. *)

From Stdlib Require Import ZArith QArith Qfield String Ascii List Bool Lia.
From Stdlib Require Import Floats DecimalString.
Import ListNotations.

Set Warnings "-inexact-float,-register-all".

Local Open Scope string_scope.
Local Open Scope Z_scope.

(* ===================================================================== *)
(** * Python values                                                       *)
(* ===================================================================== *)

Module Py.

(** An exception: its class name and the text [str(e)] yields. Errors the
    interpreter raises inside the manager ([AttributeError], [TypeError]) are
    always swallowed without their text being read; their message is left
    empty. *)
Inductive exn : Type :=
| PyExc (cls : string) (msg : string).

Definition str_exn (e : exn) : string :=
  match e with PyExc _ msg => msg end.

Definition AttributeError : exn := PyExc "AttributeError" "".
Definition TypeError : exn := PyExc "TypeError" "".
Definition ValueError : exn := PyExc "ValueError" "".

(** The result of evaluating an expression: a value, or an exception. *)
Inductive outcome (A : Type) : Type :=
| Ok (a : A)
| Raise (e : exn).
Arguments Ok {A} a.
Arguments Raise {A} e.

Definition obind {A B : Type} (o : outcome A) (k : A -> outcome B) : outcome B :=
  match o with
  | Ok a => k a
  | Raise e => Raise e
  end.

(** The values a payload is made of. [PyOther] stands for an object of any
    other type (a float, a datetime, an instance of a user class): it is not
    a container (no [get], [items], [values], no iteration); what the manager
    can observe of it is its truth value and what [repr] does on it ([str]
    is taken to do the same). *)
Inductive PyVal : Type :=
| PyNone
| PyBool (b : bool)
| PyInt (z : Z)
| PyStr (s : string)
| PyList (l : list PyVal)
| PyDict (d : list (string * PyVal))
| PyOther (truth : bool) (repr : outcome string).

Definition PyDictT : Type := list (string * PyVal).

Definition is_none (v : PyVal) : bool :=
  match v with PyNone => true | _ => false end.

(** [bool(v)]. *)
Definition truthy (v : PyVal) : bool :=
  match v with
  | PyNone => false
  | PyBool b => b
  | PyInt z => negb (z =? 0)
  | PyStr s => negb (String.eqb s "")
  | PyList l => match l with [] => false | _ => true end
  | PyDict d => match d with [] => false | _ => true end
  | PyOther t _ => t
  end.

(** [k in d] for a dict [d]. *)
Fixpoint dict_mem (k : string) (d : PyDictT) : bool :=
  match d with
  | [] => false
  | (k', _) :: d' => if String.eqb k k' then true else dict_mem k d'
  end.

(** [d.get(k, default)]. *)
Fixpoint dict_get_default (k : string) (default : PyVal) (d : PyDictT) : PyVal :=
  match d with
  | [] => default
  | (k', v) :: d' => if String.eqb k k' then v else dict_get_default k default d'
  end.

(** [d.get(k)]: [None] when the key is absent. *)
Definition dict_get (k : string) (d : PyDictT) : PyVal :=
  dict_get_default k PyNone d.

(** [d[k] = v]: an existing key keeps its place, a new one goes last. *)
Fixpoint dict_set (k : string) (v : PyVal) (d : PyDictT) : PyDictT :=
  match d with
  | [] => [(k, v)]
  | (k', v') :: d' =>
      if String.eqb k k' then (k, v) :: d' else (k', v') :: dict_set k v d'
  end.

(** [x.get(k)] on an arbitrary value: only a dict has the method. *)
Definition py_get (k : string) (x : PyVal) : outcome PyVal :=
  match x with
  | PyDict d => Ok (dict_get k d)
  | _ => Raise AttributeError
  end.

(** [x.get(k, default)]. *)
Definition py_get_default (k : string) (default : PyVal) (x : PyVal) : outcome PyVal :=
  match x with
  | PyDict d => Ok (dict_get_default k default d)
  | _ => Raise AttributeError
  end.

(** [x.items()]. *)
Definition py_items (x : PyVal) : outcome PyDictT :=
  match x with
  | PyDict d => Ok d
  | _ => Raise AttributeError
  end.

(** [x.values()]. *)
Definition py_values (x : PyVal) : outcome (list PyVal) :=
  match x with
  | PyDict d => Ok (map snd d)
  | _ => Raise AttributeError
  end.

Definition chars (s : string) : list PyVal :=
  map (fun c => PyStr (String c EmptyString)) (list_ascii_of_string s).

(** The elements [for y in x] runs over: the items of a list, the keys of a
    dict, the characters of a string; anything else is not iterable. *)
Definition py_iter (x : PyVal) : outcome (list PyVal) :=
  match x with
  | PyList l => Ok l
  | PyDict d => Ok (map (fun kv => PyStr (fst kv)) d)
  | PyStr s => Ok (chars s)
  | _ => Raise TypeError
  end.

(** [any(l)]. *)
Definition py_any (l : list PyVal) : bool := existsb truthy l.

(** ** Text *)

(** [needle in hay] for two strings. *)
Fixpoint contains (needle hay : string) : bool :=
  if String.prefix needle hay then true
  else match hay with
       | EmptyString => false
       | String _ rest => contains needle rest
       end.

Definition lower_ascii (c : ascii) : ascii :=
  let n := N_of_ascii c in
  if ((65 <=? n) && (n <=? 90))%N then ascii_of_N (n + 32) else c.

(** [s.lower()]. *)
Fixpoint lower (s : string) : string :=
  match s with
  | EmptyString => EmptyString
  | String c rest => String (lower_ascii c) (lower rest)
  end.

Definition squote : ascii := ascii_of_N 39.
Definition dquote : ascii := ascii_of_N 34.
Definition backslash : ascii := ascii_of_N 92.

Definition str1 (c : ascii) : string := String c EmptyString.

Fixpoint has_char (c : ascii) (s : string) : bool :=
  match s with
  | EmptyString => false
  | String c' rest => if Ascii.eqb c c' then true else has_char c rest
  end.

Definition hex_digit (n : N) : ascii :=
  if (n <? 10)%N then ascii_of_N (48 + n) else ascii_of_N (87 + n).

(** One character of a string, as [repr] writes it between quotes [q]. *)
Definition repr_char (q : ascii) (c : ascii) : string :=
  let n := N_of_ascii c in
  if Ascii.eqb c backslash then String backslash (str1 backslash)
  else if Ascii.eqb c q then String backslash (str1 q)
  else if (n =? 9)%N then String backslash "t"
  else if (n =? 10)%N then String backslash "n"
  else if (n =? 13)%N then String backslash "r"
  else if ((n <? 32) || (n =? 127))%N then
    String backslash (String "x" (String (hex_digit (n / 16)) (str1 (hex_digit (n mod 16)))))
  else str1 c.

Fixpoint repr_chars (q : ascii) (s : string) : string :=
  match s with
  | EmptyString => EmptyString
  | String c rest => repr_char q c ++ repr_chars q rest
  end.

(** [repr(s)] of a string: single quotes, unless the text has a single quote
    and no double quote. *)
Definition repr_str (s : string) : string :=
  let q := if has_char squote s && negb (has_char dquote s) then dquote else squote in
  str1 q ++ repr_chars q s ++ str1 q.

(** [repr(z)] of an integer. *)
Definition repr_int (z : Z) : string := NilZero.string_of_int (Z.to_int z).

(** [", ".join(l)], stopping at the first part whose [repr] raised. *)
Fixpoint join_reprs (l : list (outcome string)) : outcome string :=
  match l with
  | [] => Ok ""
  | [o] => o
  | o :: l' => obind o (fun s => obind (join_reprs l') (fun t => Ok (s ++ ", " ++ t)))
  end.

(** [repr(v)]. *)
Fixpoint py_repr (v : PyVal) : outcome string :=
  match v with
  | PyNone => Ok "None"
  | PyBool true => Ok "True"
  | PyBool false => Ok "False"
  | PyInt z => Ok (repr_int z)
  | PyStr s => Ok (repr_str s)
  | PyList l =>
      obind (join_reprs (map py_repr l)) (fun s => Ok ("[" ++ s ++ "]"))
  | PyDict d =>
      obind (join_reprs
               (map (fun kv =>
                       obind (py_repr (snd kv)) (fun s => Ok (repr_str (fst kv) ++ ": " ++ s)))
                    d))
            (fun s => Ok ("{" ++ s ++ "}"))
  | PyOther _ r => r
  end.

(** [str(v)]: the text itself for a string, [repr] for the rest. *)
Definition py_str (v : PyVal) : outcome string :=
  match v with
  | PyStr s => Ok s
  | _ => py_repr v
  end.

End Py.
Import Py.

(* ===================================================================== *)
(** * Data model                                                          *)
(* ===================================================================== *)

(** [SportType], declared by the feed service. The manager names four
    members; [OtherSport] is any further member, given by its value. *)
Inductive SportType : Type :=
| MLB | NBA | NFL | NHL
| OtherSport (value : string).

(** [sport.value]: the member's value, the lower-case tag the manager's own
    sport table uses. *)
Definition SportType_value (s : SportType) : string :=
  match s with
  | MLB => "mlb"
  | NBA => "nba"
  | NFL => "nfl"
  | NHL => "nhl"
  | OtherSport v => v
  end.

(** [DataSourceType], declared by the quality monitor; the manager names
    [SPORTRADAR] (the primary feed) and [ODDS_API]. *)
Inductive DataSourceType : Type :=
| SPORTRADAR | ODDS_API
| OtherSource (value : string).

Definition DataSourceType_value (s : DataSourceType) : string :=
  match s with
  | SPORTRADAR => "sportradar"
  | ODDS_API => "odds_api"
  | OtherSource v => v
  end.

(** Modelled from the spec: [AlertSeverity] is declared by the quality
    monitor, outside the sources at hand. The spec gives the severities WARN,
    ERROR and CRITICAL; the manager compares a member's value with "error"
    and "critical", the values of the last two. *)
Inductive AlertSeverity : Type := WARN | ERROR | CRITICAL.

Definition AlertSeverity_value (s : AlertSeverity) : string :=
  match s with
  | WARN => "warning"
  | ERROR => "error"
  | CRITICAL => "critical"
  end.

Record QualityViolation : Type := {
  rule_name : string;
  severity : AlertSeverity;
  data_source : DataSourceType;
  field_path : string;
  description : string
}.

Inductive EventType : Type :=
| SCORE_UPDATE | GAME_STATE_CHANGE | ODDS_CHANGE | INJURY_REPORT | DATA_SOURCE_UPDATE.

Inductive InvalidationScope : Type := EXACT | RELATED | PATTERN.

Definition EventType_eqb (a b : EventType) : bool :=
  match a, b with
  | SCORE_UPDATE, SCORE_UPDATE
  | GAME_STATE_CHANGE, GAME_STATE_CHANGE
  | ODDS_CHANGE, ODDS_CHANGE
  | INJURY_REPORT, INJURY_REPORT
  | DATA_SOURCE_UPDATE, DATA_SOURCE_UPDATE => true
  | _, _ => false
  end.

(** An event as [emit_event] receives it, one field per keyword argument.
    An optional argument the call leaves out is [None], as is one passed as
    Python's [None]. *)
Record CacheEvent : Type := {
  event_type : EventType;
  source : string;
  sport : option string;
  game_id : option PyVal;
  data_category : option string;
  payload : option PyDictT;
  invalidation_scope : InvalidationScope
}.

(** [integration_metrics]: a dict with five fixed keys. The counters are
    Python integers; the average is a float in the source and a rational
    here. *)
Record Metrics : Type := {
  total_requests : Z;
  cache_hits : Z;
  data_quality_violations : Z;
  cross_source_discrepancies : Z;
  avg_response_time : Q
}.

Definition initial_metrics : Metrics :=
  {| total_requests := 0; cache_hits := 0; data_quality_violations := 0;
     cross_source_discrepancies := 0; avg_response_time := 0%Q |}.

Definition set_total_requests (n : Z) (m : Metrics) : Metrics :=
  {| total_requests := n; cache_hits := cache_hits m;
     data_quality_violations := data_quality_violations m;
     cross_source_discrepancies := cross_source_discrepancies m;
     avg_response_time := avg_response_time m |}.

Definition set_cache_hits (n : Z) (m : Metrics) : Metrics :=
  {| total_requests := total_requests m; cache_hits := n;
     data_quality_violations := data_quality_violations m;
     cross_source_discrepancies := cross_source_discrepancies m;
     avg_response_time := avg_response_time m |}.

Definition set_data_quality_violations (n : Z) (m : Metrics) : Metrics :=
  {| total_requests := total_requests m; cache_hits := cache_hits m;
     data_quality_violations := n;
     cross_source_discrepancies := cross_source_discrepancies m;
     avg_response_time := avg_response_time m |}.

Definition set_avg_response_time (a : Q) (m : Metrics) : Metrics :=
  {| total_requests := total_requests m; cache_hits := cache_hits m;
     data_quality_violations := data_quality_violations m;
     cross_source_discrepancies := cross_source_discrepancies m;
     avg_response_time := a |}.

(** The [metadata] dict of a result envelope; a key a method does not write
    is [None]. *)
Record Metadata : Type := {
  md_source : string;
  md_timestamp : string;
  md_response_time_ms : option Q;
  md_cache_status : option string;
  md_cache_type : option string;
  md_quality_violations : option Z;
  md_quality_checked : option bool
}.

(** What a public read method returns: [{"data": .., "metadata": ..}] or
    [{"error": ..}]. *)
Inductive Response : Type :=
| Envelope (data : PyVal) (metadata : Metadata)
| ErrorResult (error : string).

(** The two listeners the manager registers with the event bus. *)
Inductive Listener : Type := game_state_listener | score_update_listener.

(* ===================================================================== *)
(** * Collaborators and the state of the world                            *)
(* ===================================================================== *)

(** The services the manager calls and does not implement. Each acts on a
    state [Ext] of its own (the feed's connection, the cache's store, the
    monitor's statistics, the clock) and either returns or raises. Nothing is
    assumed of them beyond their signatures; a call does not reach back into
    the manager's own attributes. Arguments that are the same at every call
    site ([warm_cache]'s fetcher and priority) are left out. *)
Record Collaborators (Ext : Type) : Type := {
  (* sportradar_service *)
  get_all_sports_data : list SportType -> Ext -> outcome PyVal * Ext;
  get_player_stats : SportType -> string -> Ext -> outcome PyVal * Ext;
  get_live_scores : SportType -> Ext -> outcome PyVal * Ext;
  (* intelligent_cache_service *)
  get_sport_data : string -> string -> string -> option string -> Ext -> outcome PyVal * Ext;
  set_sport_data : string -> string -> string -> PyVal -> option string -> Ext -> outcome unit * Ext;
  cache_get : string -> Ext -> outcome PyVal * Ext;
  warm_cache : list string -> Ext -> outcome unit * Ext;
  (* data_quality_monitor *)
  validate_data : DataSourceType -> PyVal -> Ext -> outcome (list QualityViolation) * Ext;
  update_timeliness_metric : DataSourceType -> Ext -> outcome unit * Ext;
  detect_anomalies : DataSourceType -> PyVal -> Ext -> outcome (list PyVal) * Ext;
  (* sport_volatility_models: GameState(value) and update_game_state *)
  GameState_of_value : PyVal -> outcome string;
  update_game_state : PyVal -> string -> Ext -> outcome unit * Ext;
  (* time.time() and datetime.now(timezone.utc).isoformat() *)
  time_time : Ext -> Q * Ext;
  utcnow_isoformat : Ext -> string * Ext
}.

Arguments get_all_sports_data {Ext} _ _ _.
Arguments get_player_stats {Ext} _ _ _ _.
Arguments get_live_scores {Ext} _ _ _.
Arguments get_sport_data {Ext} _ _ _ _ _ _.
Arguments set_sport_data {Ext} _ _ _ _ _ _ _.
Arguments cache_get {Ext} _ _ _.
Arguments warm_cache {Ext} _ _ _.
Arguments validate_data {Ext} _ _ _ _.
Arguments update_timeliness_metric {Ext} _ _ _.
Arguments detect_anomalies {Ext} _ _ _ _.
Arguments GameState_of_value {Ext} _ _.
Arguments update_game_state {Ext} _ _ _ _.
Arguments time_time {Ext} _ _.
Arguments utcnow_isoformat {Ext} _ _.

(** An external quality-alert handler: any callable taking the violation. It
    may change the metrics and the collaborators' state, and may raise. *)
Definition Handler (Ext : Type) : Type :=
  QualityViolation -> Metrics * Ext -> outcome unit * (Metrics * Ext).

(** The manager's attributes, the event bus (its registry of listeners and
    the events it was handed, oldest first), the record of the alert-handler
    calls made so far (position in the handler list, and how the call ended),
    and the collaborators' state. *)
Record World (Ext : Type) : Type := {
  initialized : bool;
  active_sports : list SportType;
  quality_alert_handlers : list (Handler Ext);
  integration_metrics : Metrics;
  event_listeners : list (EventType * Listener);
  emitted_events : list CacheEvent;
  handler_calls : list (nat * outcome unit);
  ext : Ext
}.

Arguments initialized {Ext} _.
Arguments active_sports {Ext} _.
Arguments quality_alert_handlers {Ext} _.
Arguments integration_metrics {Ext} _.
Arguments event_listeners {Ext} _.
Arguments emitted_events {Ext} _.
Arguments handler_calls {Ext} _.
Arguments ext {Ext} _.

Section World_updates.
Context {Ext : Type}.

Definition with_initialized (b : bool) (w : World Ext) : World Ext :=
  {| initialized := b; active_sports := active_sports w;
     quality_alert_handlers := quality_alert_handlers w;
     integration_metrics := integration_metrics w;
     event_listeners := event_listeners w; emitted_events := emitted_events w;
     handler_calls := handler_calls w; ext := ext w |}.

Definition with_handlers (hs : list (Handler Ext)) (w : World Ext) : World Ext :=
  {| initialized := initialized w; active_sports := active_sports w;
     quality_alert_handlers := hs;
     integration_metrics := integration_metrics w;
     event_listeners := event_listeners w; emitted_events := emitted_events w;
     handler_calls := handler_calls w; ext := ext w |}.

Definition with_metrics (m : Metrics) (w : World Ext) : World Ext :=
  {| initialized := initialized w; active_sports := active_sports w;
     quality_alert_handlers := quality_alert_handlers w;
     integration_metrics := m;
     event_listeners := event_listeners w; emitted_events := emitted_events w;
     handler_calls := handler_calls w; ext := ext w |}.

Definition with_listeners (ls : list (EventType * Listener)) (w : World Ext) : World Ext :=
  {| initialized := initialized w; active_sports := active_sports w;
     quality_alert_handlers := quality_alert_handlers w;
     integration_metrics := integration_metrics w;
     event_listeners := ls; emitted_events := emitted_events w;
     handler_calls := handler_calls w; ext := ext w |}.

Definition with_emitted (es : list CacheEvent) (w : World Ext) : World Ext :=
  {| initialized := initialized w; active_sports := active_sports w;
     quality_alert_handlers := quality_alert_handlers w;
     integration_metrics := integration_metrics w;
     event_listeners := event_listeners w; emitted_events := es;
     handler_calls := handler_calls w; ext := ext w |}.

Definition with_handler_calls (cs : list (nat * outcome unit)) (w : World Ext) : World Ext :=
  {| initialized := initialized w; active_sports := active_sports w;
     quality_alert_handlers := quality_alert_handlers w;
     integration_metrics := integration_metrics w;
     event_listeners := event_listeners w; emitted_events := emitted_events w;
     handler_calls := cs; ext := ext w |}.

Definition with_ext (x : Ext) (w : World Ext) : World Ext :=
  {| initialized := initialized w; active_sports := active_sports w;
     quality_alert_handlers := quality_alert_handlers w;
     integration_metrics := integration_metrics w;
     event_listeners := event_listeners w; emitted_events := emitted_events w;
     handler_calls := handler_calls w; ext := x |}.

(** [EnhancedIntegrationManager.__init__], with an event bus that has no
    listener yet. *)
Definition new_manager (x : Ext) : World Ext :=
  {| initialized := false; active_sports := [MLB; NBA; NFL; NHL];
     quality_alert_handlers := [];
     integration_metrics := initial_metrics;
     event_listeners := []; emitted_events := [];
     handler_calls := []; ext := x |}.

(** ** Computations: state passing with exceptions

    A method of the manager maps the world to the world it leaves and either
    a value or the exception it raised. What was changed before an exception
    stays changed. *)
Definition M (A : Type) : Type := World Ext -> outcome A * World Ext.

Definition ret {A : Type} (a : A) : M A := fun w => (Ok a, w).

Definition raise {A : Type} (e : exn) : M A := fun w => (Raise e, w).

Definition bind {A B : Type} (m : M A) (k : A -> M B) : M B :=
  fun w =>
    match m w with
    | (Ok a, w') => k a w'
    | (Raise e, w') => (Raise e, w')
    end.

(** [try: body except Exception as e: handler e]. *)
Definition try_except {A : Type} (body : M A) (handler : exn -> M A) : M A :=
  fun w =>
    match body w with
    | (Ok a, w') => (Ok a, w')
    | (Raise e, w') => handler e w'
    end.

(** The value of an expression that may raise. *)
Definition eval {A : Type} (o : outcome A) : M A := fun w => (o, w).

(** A call to a collaborator. *)
Definition call {A : Type} (f : Ext -> outcome A * Ext) : M A :=
  fun w => let (o, x) := f (ext w) in (o, with_ext x w).

(** A call to a collaborator that cannot raise (the clock). *)
Definition call_total {A : Type} (f : Ext -> A * Ext) : M A :=
  fun w => let (a, x) := f (ext w) in (Ok a, with_ext x w).

Definition get_metrics : M Metrics := fun w => (Ok (integration_metrics w), w).

Definition put_metrics (m : Metrics) : M unit := fun w => (Ok tt, with_metrics m w).

Definition when (b : bool) (m : M unit) : M unit := if b then m else ret tt.

(** [for x in l: body x]. *)
Fixpoint for_each {A : Type} (l : list A) (body : A -> M unit) : M unit :=
  match l with
  | [] => ret tt
  | x :: l' => bind (body x) (fun _ => for_each l' body)
  end.

(** A loop that updates a local variable [acc]. *)
Fixpoint fold_each {A S : Type} (l : list A) (acc : S) (body : S -> A -> M S) : M S :=
  match l with
  | [] => ret acc
  | x :: l' => bind (body acc x) (fun acc' => fold_each l' acc' body)
  end.

End World_updates.

Declare Scope manager_scope.
Delimit Scope manager_scope with mgr.
Notation "x <- m ;; k" := (bind m (fun x => k))
  (at level 61, m at next level, right associativity) : manager_scope.
Notation "m ;; k" := (bind m (fun _ => k))
  (at level 61, right associativity) : manager_scope.
Local Open Scope manager_scope.

(* ===================================================================== *)
(** * The manager                                                         *)
(* ===================================================================== *)

(** ** Sport attribution and cache lifetimes (pure helpers) *)

(** The table of [_extract_sport_from_data], in the order the dict literal
    lists it, which is the order [items()] yields. *)
Definition sport_indicators : list (string * list string) :=
  [ ("mlb", ["baseball"; "mlb"]);
    ("nba", ["basketball"; "nba"]);
    ("nfl", ["football"; "nfl"; "american_football"]);
    ("nhl", ["hockey"; "nhl"; "ice_hockey"]) ].

(** [any(indicator in data_str for indicator in indicators)]. *)
Definition any_indicator (indicators : list string) (data_str : string) : bool :=
  existsb (fun indicator => contains indicator data_str) indicators.

(** The loop over [sport_indicators.items()]: the first sport one of whose
    indicators occurs in the text. *)
Fixpoint first_sport (table : list (string * list string)) (data_str : string) : option string :=
  match table with
  | [] => None
  | (sport, indicators) :: rest =>
      if any_indicator indicators data_str then Some sport
      else first_sport rest data_str
  end.

(** [_extract_sport_from_data]: the whole body is inside [try], and the
    handler returns [None]. *)
Definition _extract_sport_from_data (data : PyVal) : option string :=
  match py_str data with
  | Ok s => first_sport sport_indicators (lower s)
  | Raise _ => None
  end.

Definition SportType_eqb (a b : SportType) : bool :=
  match a, b with
  | MLB, MLB | NBA, NBA | NFL, NFL | NHL, NHL => true
  | OtherSport u, OtherSport v => String.eqb u v
  | _, _ => false
  end.

Definition base_ttls : list (string * Z) :=
  [ ("live_scores", 30); ("player_stats", 1800); ("team_stats", 3600);
    ("schedules", 7200); ("injury_reports", 600) ].

Definition sport_multipliers : list (SportType * float) :=
  [ (MLB, 1.2%float); (NBA, 0.8%float); (NFL, 1.5%float); (NHL, 1.0%float) ].

Fixpoint lookup_ttl (k : string) (default : Z) (t : list (string * Z)) : Z :=
  match t with
  | [] => default
  | (k', v) :: t' => if String.eqb k k' then v else lookup_ttl k default t'
  end.

Fixpoint lookup_multiplier (k : SportType) (default : float) (t : list (SportType * float)) : float :=
  match t with
  | [] => default
  | (k', v) :: t' => if SportType_eqb k k' then v else lookup_multiplier k default t'
  end.

(** The float an integer becomes in [int * float]. Exact below 2^53, rounded
    to nearest-even below 2^63; the table's integers are far smaller. *)
Definition float_of_int (z : Z) : float :=
  if z <? 0 then PrimFloat.opp (PrimFloat.of_uint63 (Uint63.of_Z (- z)))
  else PrimFloat.of_uint63 (Uint63.of_Z z).

(** [int(f)]: truncation toward zero; an infinity or a NaN raises. *)
Definition int_of_float (f : float) : outcome Z :=
  match Prim2SF f with
  | S754_zero _ => Ok 0
  | S754_finite s m e =>
      let a := if 0 <=? e then Z.shiftl (Zpos m) e else Z.shiftr (Zpos m) (- e) in
      Ok (if s then - a else a)
  | S754_infinity _ => Raise (PyExc "OverflowError" "")
  | S754_nan => Raise ValueError
  end.

(** [_get_sport_specific_cache_ttl], in binary64 arithmetic as the source. *)
Definition _get_sport_specific_cache_ttl (sport : SportType) (data_type : string) : outcome Z :=
  let base_ttl := lookup_ttl data_type 3600 base_ttls in
  let sport_multiplier := lookup_multiplier sport 1.0%float sport_multipliers in
  int_of_float (PrimFloat.mul (float_of_int base_ttl) sport_multiplier).

(** The lifetime as the specification words it: a base per category times a
    decimal factor per sport, in exact arithmetic, truncated. It is compared
    with the function above. *)
Definition spec_base (data_type : string) : Z :=
  if String.eqb data_type "live_scores" then 30
  else if String.eqb data_type "player_stats" then 1800
  else if String.eqb data_type "team_stats" then 3600
  else if String.eqb data_type "schedules" then 7200
  else if String.eqb data_type "injury_reports" then 600
  else 3600.

Definition spec_multiplier (sport : SportType) : Q :=
  match sport with
  | MLB => 12 # 10
  | NBA => 8 # 10
  | NFL => 15 # 10
  | NHL => 1
  | OtherSport _ => 1
  end.

Definition truncate (q : Q) : Z := Z.quot (Qnum q) (Zpos (Qden q)).

Definition spec_ttl (sport : SportType) (data_type : string) : Z :=
  truncate (inject_Z (spec_base data_type) * spec_multiplier sport)%Q.

Section Manager.
Context {Ext : Type} (C : Collaborators Ext).

#[local] Abbreviation M := (@M Ext).

(** ** The event bus *)

(** [self.integration_metrics["total_requests"] += 1]. *)
Definition incr_total_requests : M unit :=
  m <- get_metrics ;;
  put_metrics (set_total_requests (total_requests m + 1) m).

(** The bodies of the two listeners of [_setup_cache_event_listeners]. *)
Definition run_listener (l : Listener) (event : CacheEvent) : M unit :=
  match l with
  | game_state_listener =>
      try_except
        (match game_id event with
         | None => ret tt
         | Some gid =>
             if truthy gid then
               new_state <- eval (match payload event with
                                  | Some p => Ok (dict_get "new_state" p)
                                  | None => Raise AttributeError
                                  end) ;;
               if truthy new_state then
                 game_state <- eval (GameState_of_value C new_state) ;;
                 call (update_game_state C gid game_state)
               else ret tt
             else ret tt
         end)
        (fun _ => ret tt)
  | score_update_listener =>
      try_except incr_total_requests (fun _ => ret tt)
  end.

(** Modelled from the spec: [event_driven_cache.emit_event] is the event
    bus, outside the sources at hand. By the dispatch contract it invokes
    every listener registered for the event's type, in registration order,
    and a listener's exception is isolated: it reaches neither the sibling
    listeners nor the emitting call. *)
Definition dispatch (event : CacheEvent) (ls : list (EventType * Listener)) : M unit :=
  for_each ls (fun tl =>
    when (EventType_eqb (fst tl) (event_type event))
         (try_except (run_listener (snd tl) event) (fun _ => ret tt))).

Definition emit_event (event : CacheEvent) : M unit :=
  fun w => dispatch event (event_listeners w) (with_emitted (emitted_events w ++ [event]) w).

(** Modelled from the spec: [register_event_listener] appends to the
    registry. *)
Definition register_event_listener (t : EventType) (l : Listener) : M unit :=
  fun w => (Ok tt, with_listeners (event_listeners w ++ [(t, l)]) w).

(** [_setup_cache_event_listeners]. *)
Definition _setup_cache_event_listeners : M unit :=
  register_event_listener GAME_STATE_CHANGE game_state_listener ;;
  register_event_listener SCORE_UPDATE score_update_listener.

(** [register_quality_alert_handler]. *)
Definition register_quality_alert_handler (handler : Handler Ext) : M unit :=
  fun w => (Ok tt, with_handlers (quality_alert_handlers w ++ [handler]) w).

(** ** Quality monitoring *)

(** [_monitor_incoming_data]. *)
Definition _monitor_incoming_data (data_source : DataSourceType) (data : PyVal) : M unit :=
  try_except
    (violations <- call (validate_data C data_source data) ;;
     when (negb (Nat.eqb (length violations) 0))
          (m <- get_metrics ;;
           put_metrics (set_data_quality_violations
                          (data_quality_violations m + Z.of_nat (length violations)) m)) ;;
     call (update_timeliness_metric C data_source) ;;
     anomalies <- call (detect_anomalies C data_source data) ;;
     ret tt)
    (fun _ => ret tt).

(** [await handler(violation)] for the handler at position [i], recorded in
    [handler_calls]. *)
Definition call_handler (i : nat) (handler : Handler Ext) (violation : QualityViolation) : M unit :=
  fun w =>
    let '(o, (m, x)) := handler violation (integration_metrics w, ext w) in
    (o, with_handler_calls (handler_calls w ++ [(i, o)]) (with_ext x (with_metrics m w))).

(** The loop that notifies the registered handlers, from position [i] on. *)
Fixpoint notify_handlers (i : nat) (handlers : list (Handler Ext)) (violation : QualityViolation) : M unit :=
  match handlers with
  | [] => ret tt
  | handler :: rest =>
      try_except (call_handler i handler violation) (fun _ => ret tt) ;;
      notify_handlers (S i) rest violation
  end.

Definition is_error_or_critical (s : AlertSeverity) : bool :=
  existsb (String.eqb (AlertSeverity_value s)) ["error"; "critical"].

Definition violation_event (violation : QualityViolation) : CacheEvent :=
  {| event_type := DATA_SOURCE_UPDATE;
     source := DataSourceType_value (data_source violation);
     sport := None;
     game_id := None;
     data_category := Some (field_path violation);
     payload := Some [ ("violation", PyStr (rule_name violation));
                       ("severity", PyStr (AlertSeverity_value (severity violation))) ];
     invalidation_scope := PATTERN |}.

(** [_handle_quality_violation]. *)
Definition _handle_quality_violation (violation : QualityViolation) : M unit :=
  m <- get_metrics ;;
  put_metrics (set_data_quality_violations (data_quality_violations m + 1) m) ;;
  when (is_error_or_critical (severity violation))
       (emit_event (violation_event violation)) ;;
  fun w => notify_handlers 0 (quality_alert_handlers w) violation w.

(** ** Event derivation *)

Definition score_update_event (data_source : DataSourceType) (data : PyDictT)
    (gid home_score away_score : PyVal) : CacheEvent :=
  {| event_type := SCORE_UPDATE;
     source := DataSourceType_value data_source;
     sport := _extract_sport_from_data (PyDict data);
     game_id := Some gid;
     data_category := None;
     payload := Some [("home_score", home_score); ("away_score", away_score)];
     invalidation_scope := RELATED |}.

Definition game_state_event (data_source : DataSourceType) (data : PyDictT)
    (gid game_status : PyVal) : CacheEvent :=
  {| event_type := GAME_STATE_CHANGE;
     source := DataSourceType_value data_source;
     sport := _extract_sport_from_data (PyDict data);
     game_id := Some gid;
     data_category := None;
     payload := Some [("new_state", game_status)];
     invalidation_scope := PATTERN |}.

Definition odds_event (data_source : DataSourceType) (data : PyDictT) (now : string) : CacheEvent :=
  {| event_type := ODDS_CHANGE;
     source := DataSourceType_value data_source;
     sport := _extract_sport_from_data (PyDict data);
     game_id := None;
     data_category := Some "odds";
     payload := Some [("timestamp", PyStr now)];
     invalidation_scope := PATTERN |}.

Definition injury_event (data_source : DataSourceType) (data : PyDictT) : CacheEvent :=
  {| event_type := INJURY_REPORT;
     source := DataSourceType_value data_source;
     sport := _extract_sport_from_data (PyDict data);
     game_id := None;
     data_category := Some "injuries";
     payload := None;
     invalidation_scope := RELATED |}.

(** The body of [for game in games] in [_emit_cache_events_from_data]. *)
Definition emit_for_game (data_source : DataSourceType) (data : PyDictT) (game : PyVal) : M unit :=
  gid <- eval (py_get "id" game) ;;
  if negb (truthy gid) then ret tt (* continue *)
  else
    home_score <- eval (py_get "home_score" game) ;;
    away_score <- eval (py_get "away_score" game) ;;
    when (negb (is_none home_score) || negb (is_none away_score))
         (emit_event (score_update_event data_source data gid home_score away_score)) ;;
    game_status <- eval (py_get "status" game) ;;
    when (truthy game_status)
         (emit_event (game_state_event data_source data gid game_status)).

(** [_emit_cache_events_from_data]; the payload [data] is a dict. *)
Definition _emit_cache_events_from_data (data_source : DataSourceType) (data : PyDictT) : M unit :=
  try_except
    (when (dict_mem "games" data)
          (games <- eval (py_iter (dict_get_default "games" (PyList []) data)) ;;
           for_each games (emit_for_game data_source data)) ;;
     when (dict_mem "odds" data || dict_mem "bookmakers" data)
          (now <- call_total (utcnow_isoformat C) ;;
           emit_event (odds_event data_source data now)) ;;
     when (dict_mem "injuries" data || dict_mem "injury_reports" data)
          (emit_event (injury_event data_source data)))
    (fun _ => ret tt).

(** The callback [_setup_realtime_quality_monitoring] subscribes to the
    feed's pushes. *)
Definition sportradar_quality_callback (data : PyDictT) : M unit :=
  _monitor_incoming_data SPORTRADAR (PyDict data) ;;
  _emit_cache_events_from_data SPORTRADAR data.

(** ** Metrics *)

(** [_update_response_time_metric]. *)
Definition update_average (current_avg : Q) (n : Z) (response_time : Q) : Q :=
  if 1 <? n then
    ((current_avg * inject_Z (n - 1) + response_time) / inject_Z n)%Q
  else response_time.

Definition _update_response_time_metric (response_time : Q) : M unit :=
  m <- get_metrics ;;
  put_metrics (set_avg_response_time
                 (update_average (avg_response_time m) (total_requests m) response_time) m).

(** One request as the read path counts it: the request counter goes up
    first, the response time is folded into the average after. *)
Definition record_sample (response_time : Q) : M unit :=
  incr_total_requests ;;
  _update_response_time_metric response_time.

(** ** The read path *)

Definition unavailable_placeholder : PyVal :=
  PyDict [ ("live_scores", PyNone); ("schedules", PyNone); ("injuries", PyNone);
           ("error", PyStr "Data source unavailable, using fallback") ].

Definition fallback_key (sport : SportType) : string :=
  "fallback_sports_data_" ++ SportType_value sport.

Definition fallback_metadata (now : string) : Metadata :=
  {| md_source := "fallback"; md_timestamp := now; md_response_time_ms := None;
     md_cache_status := Some "fallback"; md_cache_type := None;
     md_quality_violations := None; md_quality_checked := None |}.

(** One turn of the loop of [_get_fallback_data], on the dict built so
    far. *)
Definition fallback_turn (fallback_data : PyDictT) (sport : SportType) : M PyDictT :=
  cached <- call (cache_get C (fallback_key sport)) ;;
  if truthy cached
  then ret (dict_set (SportType_value sport) cached fallback_data)
  else ret (dict_set (SportType_value sport) unavailable_placeholder fallback_data).

(** [_get_fallback_data]: no [try] protects the cache lookup. *)
Definition _get_fallback_data (sports : list SportType) : M Response :=
  fallback_data <- fold_each sports [] fallback_turn ;;
  now <- call_total (utcnow_isoformat C) ;;
  ret (Envelope (PyDict fallback_data) (fallback_metadata now)).

Definition api_metadata (now : string) (response_time : Q) : Metadata :=
  {| md_source := "sportradar"; md_timestamp := now;
     md_response_time_ms := Some (response_time * 1000)%Q;
     md_cache_status := Some "api"; md_cache_type := None;
     md_quality_violations := None; md_quality_checked := None |}.

(** The [try] block of [get_comprehensive_sports_data]. *)
Definition fetch_comprehensive (start_time : Q) (sports_to_fetch : list SportType) : M Response :=
  incr_total_requests ;;
  sports_data <- call (get_all_sports_data C sports_to_fetch) ;;
  items <- eval (py_items sports_data) ;;
  for_each items (fun item =>
    let data := snd item in
    if truthy data then
      values <- eval (py_values data) ;;
      when (py_any values) (_monitor_incoming_data SPORTRADAR data)
    else ret tt) ;;
  now <- call_total (time_time C) ;;
  let response_time := (now - start_time)%Q in
  _update_response_time_metric response_time ;;
  stamp <- call_total (utcnow_isoformat C) ;;
  ret (Envelope sports_data (api_metadata stamp response_time)).

(** [get_comprehensive_sports_data]. A member of [SportType] is true in
    [if sport:]; [sports_to_fetch] is bound right after the counter is
    incremented, before anything that can raise. *)
Definition sports_to_fetch (sport : option SportType) (w : World Ext) : list SportType :=
  match sport with
  | Some s => [s]
  | None => active_sports w
  end.

Definition get_comprehensive_sports_data (sport : option SportType) : M Response :=
  start_time <- call_total (time_time C) ;;
  fun w =>
    try_except (fetch_comprehensive start_time (sports_to_fetch sport w))
               (fun _ => _get_fallback_data (sports_to_fetch sport w)) w.

Definition player_key (sport : SportType) (player_id : string) : string :=
  "enhanced_player_" ++ SportType_value sport ++ "_" ++ player_id.

Definition hit_metadata (now : string) : Metadata :=
  {| md_source := "cache"; md_timestamp := now; md_response_time_ms := None;
     md_cache_status := Some "hit"; md_cache_type := Some "sport_aware";
     md_quality_violations := None; md_quality_checked := None |}.

Definition miss_metadata (now : string) (response_time : Q) (violations : nat) : Metadata :=
  {| md_source := "sportradar"; md_timestamp := now;
     md_response_time_ms := Some (response_time * 1000)%Q;
     md_cache_status := Some "miss"; md_cache_type := Some "sport_aware";
     md_quality_violations := Some (Z.of_nat violations); md_quality_checked := None |}.

(** [get_enhanced_player_data]. *)
Definition get_enhanced_player_data (sport : SportType) (player_id : string)
    (user_id : option string) : M Response :=
  start_time <- call_total (time_time C) ;;
  try_except
    (incr_total_requests ;;
     cached_data <- call (get_sport_data C (SportType_value sport) "player_stats"
                            (player_key sport player_id) user_id) ;;
     if truthy cached_data then
       m <- get_metrics ;;
       put_metrics (set_cache_hits (cache_hits m + 1) m) ;;
       now <- call_total (utcnow_isoformat C) ;;
       ret (Envelope cached_data (hit_metadata now))
     else
       player_data <- call (get_player_stats C sport player_id) ;;
       if truthy player_data then
         violations <- call (validate_data C SPORTRADAR (PyDict [("player", player_data)])) ;;
         call (set_sport_data C (SportType_value sport) "player_stats"
                 (player_key sport player_id) player_data user_id) ;;
         now <- call_total (time_time C) ;;
         let response_time := (now - start_time)%Q in
         _update_response_time_metric response_time ;;
         stamp <- call_total (utcnow_isoformat C) ;;
         ret (Envelope player_data (miss_metadata stamp response_time (length violations)))
       else ret (ErrorResult "Player data not available"))
    (fun e => ret (ErrorResult (str_exn e))).

(** The four keys [_warm_related_caches] warms for one game; the f-strings
    format the identifiers with [str]. *)
Definition warm_patterns (sport : SportType) (game gid : PyVal) : outcome (list string) :=
  obind (py_str gid) (fun g =>
  obind (obind (py_get_default "home_team" (PyDict []) game) (py_get "id")) (fun home =>
  obind (py_str home) (fun h =>
  obind (obind (py_get_default "away_team" (PyDict []) game) (py_get "id")) (fun away =>
  obind (py_str away) (fun a =>
  let v := SportType_value sport in
  Ok [ "game_details_" ++ v ++ "_" ++ g;
       "player_props_" ++ v ++ "_" ++ g;
       "team_stats_" ++ v ++ "_" ++ h;
       "team_stats_" ++ v ++ "_" ++ a ]))))).

(** [_warm_related_caches]. *)
Definition _warm_related_caches (sport : SportType) (live_data : PyVal) : M unit :=
  try_except
    (games_v <- eval (py_get_default "games" (PyList []) live_data) ;;
     games <- eval (py_iter games_v) ;;
     for_each games (fun game =>
       gid <- eval (py_get "id" game) ;;
       if truthy gid then
         patterns <- eval (warm_patterns sport game gid) ;;
         call (warm_cache C patterns)
       else ret tt))
    (fun _ => ret tt).

Definition live_metadata (now : string) : Metadata :=
  {| md_source := "sportradar_live"; md_timestamp := now; md_response_time_ms := None;
     md_cache_status := None; md_cache_type := None;
     md_quality_violations := None; md_quality_checked := Some true |}.

(** [get_live_scores_with_quality_monitoring]. *)
Definition get_live_scores_with_quality_monitoring (sport : SportType) : M Response :=
  try_except
    (live_data <- call (get_live_scores C sport) ;;
     if truthy live_data then
       _monitor_incoming_data SPORTRADAR live_data ;;
       _warm_related_caches sport live_data ;;
       now <- call_total (utcnow_isoformat C) ;;
       ret (Envelope live_data (live_metadata now))
     else ret (ErrorResult "Live scores not available"))
    (fun e => ret (ErrorResult (str_exn e))).

End Manager.

(* ===================================================================== *)
(** * Start-up and shutdown                                               *)
(* ===================================================================== *)

(** The calls [initialize] and [close] make on the collaborators. Each acts
    on the collaborators' state and returns or raises. Registering a
    callback hands the collaborator a closure of the manager; what the
    collaborator later does with it is outside these calls. The event bus
    keeps its registry of listeners in the model of the bus above;
    [event_driven_cache.initialize] starts the bus and is not taken to empty
    that registry. *)
Record Lifecycle (Ext : Type) : Type := {
  pipeline_initialize : Ext -> outcome unit * Ext;
  cache_initialize : Ext -> outcome unit * Ext;
  event_cache_initialize : Ext -> outcome unit * Ext;
  (* returns whether the feed is available; a false answer is "demo mode" *)
  sportradar_initialize : Ext -> outcome PyVal * Ext;
  monitor_initialize : Ext -> outcome unit * Ext;
  register_alert_callback : AlertSeverity -> Ext -> outcome unit * Ext;
  register_reconciliation_rule : Ext -> outcome unit * Ext;
  (* bool(sportradar_service.api_key) *)
  api_key : Ext -> bool;
  start_push_feeds : list SportType -> Ext -> outcome unit * Ext;
  subscribe_to_updates : SportType -> Ext -> outcome unit * Ext;
  sportradar_close : Ext -> outcome unit * Ext;
  pipeline_close : Ext -> outcome unit * Ext;
  cache_close : Ext -> outcome unit * Ext;
  monitor_close : Ext -> outcome unit * Ext
}.

Arguments pipeline_initialize {Ext} _ _.
Arguments cache_initialize {Ext} _ _.
Arguments event_cache_initialize {Ext} _ _.
Arguments sportradar_initialize {Ext} _ _.
Arguments monitor_initialize {Ext} _ _.
Arguments register_alert_callback {Ext} _ _ _.
Arguments register_reconciliation_rule {Ext} _ _.
Arguments api_key {Ext} _ _.
Arguments start_push_feeds {Ext} _ _ _.
Arguments subscribe_to_updates {Ext} _ _ _.
Arguments sportradar_close {Ext} _ _.
Arguments pipeline_close {Ext} _ _.
Arguments cache_close {Ext} _ _.
Arguments monitor_close {Ext} _ _.

Section Startup.
Context {Ext : Type} (L : Lifecycle Ext).

#[local] Abbreviation M := (@M Ext).

(** [_initialize_core_components]: the answer of the feed service only
    chooses which line is logged. *)
Definition _initialize_core_components : M unit :=
  call (pipeline_initialize L) ;;
  call (cache_initialize L) ;;
  call (event_cache_initialize L) ;;
  sportradar_available <- call (sportradar_initialize L) ;;
  call (monitor_initialize L).

(** [_setup_data_quality_monitoring]. *)
Definition _setup_data_quality_monitoring : M unit :=
  call (register_alert_callback L ERROR) ;;
  call (register_alert_callback L CRITICAL).

(** [_setup_cross_source_reconciliation]. *)
Definition _setup_cross_source_reconciliation : M unit :=
  call (register_reconciliation_rule L).

(** [_setup_realtime_quality_monitoring]. *)
Definition _setup_realtime_quality_monitoring : M unit :=
  (fun w => for_each (active_sports w)
              (fun sport => call (subscribe_to_updates L sport)) w) ;;
  _setup_cache_event_listeners.

(** [_start_background_services]. *)
Definition _start_background_services : M unit :=
  (fun w => when (api_key L (ext w))
              (call (start_push_feeds L (active_sports w))) w) ;;
  _setup_realtime_quality_monitoring.

(** [self.initialized = b]. *)
Definition set_initialized (b : bool) : M unit :=
  fun w => (Ok tt, with_initialized b w).

(** [initialize]. *)
Definition initialize : M bool :=
  try_except
    (_initialize_core_components ;;
     _setup_data_quality_monitoring ;;
     _setup_cross_source_reconciliation ;;
     _start_background_services ;;
     set_initialized true ;;
     ret true)
    (fun _ => ret false).

(** [close]: no [try] around the four calls. *)
Definition close : M unit :=
  call (sportradar_close L) ;;
  call (pipeline_close L) ;;
  call (cache_close L) ;;
  call (monitor_close L) ;;
  set_initialized false.

End Startup.

(* ===================================================================== *)
(** * Sample inputs                                                       *)
(* ===================================================================== *)

(** [{"note": "hockey night", "league": "Baseball"}] *)
Definition two_sports_payload : PyVal :=
  PyDict [("note", PyStr "hockey night"); ("league", PyStr "Baseball")].

(** Collaborators over a trivial state: the feed is down (every fetch
    raises), the cache is empty, the monitor finds nothing, the clock
    stands still. *)
Definition feed_down : Collaborators unit :=
  {| get_all_sports_data := fun _ x => (Raise (PyExc "ConnectionError" "feed down"), x);
     get_player_stats := fun _ _ x => (Raise (PyExc "ConnectionError" "feed down"), x);
     get_live_scores := fun _ x => (Raise (PyExc "ConnectionError" "feed down"), x);
     get_sport_data := fun _ _ _ _ x => (Ok PyNone, x);
     set_sport_data := fun _ _ _ _ _ x => (Ok tt, x);
     cache_get := fun _ x => (Ok PyNone, x);
     warm_cache := fun _ x => (Ok tt, x);
     validate_data := fun _ _ x => (Ok [], x);
     update_timeliness_metric := fun _ x => (Ok tt, x);
     detect_anomalies := fun _ _ x => (Ok [], x);
     GameState_of_value := fun v => match v with PyStr s => Ok s | _ => Raise ValueError end;
     update_game_state := fun _ _ x => (Ok tt, x);
     time_time := fun x => (0%Q, x);
     utcnow_isoformat := fun x => ("2025-01-01T00:00:00+00:00", x) |}.

(** The same, with a feed that answers. *)
Definition feed_up : Collaborators unit :=
  {| get_all_sports_data := fun _ x =>
       (Ok (PyDict [("mlb", PyDict [("live_scores", PyList [PyStr "g1"])])]), x);
     get_player_stats := fun _ _ x => (Ok (PyDict [("hits", PyInt 2)]), x);
     get_live_scores := fun _ x => (Ok (PyDict [("games", PyList [])]), x);
     get_sport_data := fun _ _ _ _ x => (Ok PyNone, x);
     set_sport_data := fun _ _ _ _ _ x => (Ok tt, x);
     cache_get := fun _ x => (Ok PyNone, x);
     warm_cache := fun _ x => (Ok tt, x);
     validate_data := fun _ _ x => (Ok [], x);
     update_timeliness_metric := fun _ x => (Ok tt, x);
     detect_anomalies := fun _ _ x => (Ok [], x);
     GameState_of_value := fun v => match v with PyStr s => Ok s | _ => Raise ValueError end;
     update_game_state := fun _ _ x => (Ok tt, x);
     time_time := fun x => (0%Q, x);
     utcnow_isoformat := fun x => ("2025-01-01T00:00:00+00:00", x) |}.

(** A handler that always raises, and one that returns; neither touches the
    metrics. *)
Definition raising_handler : Handler unit :=
  fun _ s => (Raise (PyExc "RuntimeError" "pager unreachable"), s).

Definition quiet_handler : Handler unit :=
  fun _ s => (Ok tt, s).

Definition stale_odds : QualityViolation :=
  {| rule_name := "freshness"; severity := CRITICAL; data_source := SPORTRADAR;
     field_path := "odds"; description := "odds older than the allowed age" |}.

(** A manager after [_setup_cache_event_listeners], with the raising handler
    registered before the quiet one. *)
Definition manager_with_handlers : World unit :=
  with_handlers [raising_handler; quiet_handler]
    (with_listeners [(GAME_STATE_CHANGE, game_state_listener);
                     (SCORE_UPDATE, score_update_listener)]
       (new_manager tt)).

(** [{"games": [{"id": "g1", "home_score": 3, "away_score": 2,
    "status": "live"}]}] *)
Definition g1_payload : PyDictT :=
  [("games", PyList [PyDict [("id", PyStr "g1"); ("home_score", PyInt 3);
                             ("away_score", PyInt 2); ("status", PyStr "live")]])].

(** [{"games": [{"id": "g1", "home_score": None}]}]: the home-score field is
    there, and null. *)
Definition null_score_game : PyDictT := [("id", PyStr "g1"); ("home_score", PyNone)].

Definition null_score_payload : PyDictT := [("games", PyList [PyDict null_score_game])].

(** [{"games": [{"id": "g7", "away_score": 0}]}] *)
Definition away_score_game : PyDictT := [("id", PyStr "g7"); ("away_score", PyInt 0)].

Definition away_score_payload : PyDictT := [("games", PyList [PyDict away_score_game])].

(** [{"bookmakers": ["acme"]}] *)
Definition bookmakers_payload : PyDictT := [("bookmakers", PyList [PyStr "acme"])].

(** [{"games": ["g1"], "odds": [], "injuries": []}]: the entry of the games
    list is a string, not a record. *)
Definition broken_games_payload : PyDictT :=
  [("games", PyList [PyStr "g1"]); ("odds", PyList []); ("injuries", PyList [])].

(** Start-up and shutdown calls that all return; the feed reports that it
    is not available (demo mode) and has no API key. *)
Definition quiet_lifecycle : Lifecycle unit :=
  {| pipeline_initialize := fun x => (Ok tt, x);
     cache_initialize := fun x => (Ok tt, x);
     event_cache_initialize := fun x => (Ok tt, x);
     sportradar_initialize := fun x => (Ok (PyBool false), x);
     monitor_initialize := fun x => (Ok tt, x);
     register_alert_callback := fun _ x => (Ok tt, x);
     register_reconciliation_rule := fun x => (Ok tt, x);
     api_key := fun _ => false;
     start_push_feeds := fun _ x => (Ok tt, x);
     subscribe_to_updates := fun _ x => (Ok tt, x);
     sportradar_close := fun x => (Ok tt, x);
     pipeline_close := fun x => (Ok tt, x);
     cache_close := fun x => (Ok tt, x);
     monitor_close := fun x => (Ok tt, x) |}.

(** A score update for game "g1". *)
Definition g1_score_update : CacheEvent :=
  score_update_event SPORTRADAR g1_payload (PyStr "g1") (PyInt 3) (PyInt 2).

(** The feed is down and so is the cache: every lookup raises. *)
Definition cache_error : exn := PyExc "ConnectionError" "cache down".

Definition all_down : Collaborators unit :=
  {| get_all_sports_data := get_all_sports_data feed_down;
     get_player_stats := get_player_stats feed_down;
     get_live_scores := get_live_scores feed_down;
     get_sport_data := fun _ _ _ _ x => (Raise cache_error, x);
     set_sport_data := fun _ _ _ _ _ x => (Raise cache_error, x);
     cache_get := fun _ x => (Raise cache_error, x);
     warm_cache := fun _ x => (Raise cache_error, x);
     validate_data := validate_data feed_down;
     update_timeliness_metric := update_timeliness_metric feed_down;
     detect_anomalies := detect_anomalies feed_down;
     GameState_of_value := GameState_of_value feed_down;
     update_game_state := update_game_state feed_down;
     time_time := time_time feed_down;
     utcnow_isoformat := utcnow_isoformat feed_down |}.

(** A feed that answers [None] instead of a dict. *)
Definition feed_answers_none : Collaborators unit :=
  {| get_all_sports_data := fun _ x => (Ok PyNone, x);
     get_player_stats := get_player_stats feed_down;
     get_live_scores := get_live_scores feed_down;
     get_sport_data := get_sport_data feed_down;
     set_sport_data := set_sport_data feed_down;
     cache_get := cache_get feed_down;
     warm_cache := warm_cache feed_down;
     validate_data := validate_data feed_down;
     update_timeliness_metric := update_timeliness_metric feed_down;
     detect_anomalies := detect_anomalies feed_down;
     GameState_of_value := GameState_of_value feed_down;
     update_game_state := update_game_state feed_down;
     time_time := time_time feed_down;
     utcnow_isoformat := utcnow_isoformat feed_down |}.

(** The feed is down and the cache answers: a lookup of [key] returns
    [content key]. *)
Definition feed_down_with_cache (content : string -> PyVal) : Collaborators unit :=
  {| get_all_sports_data := get_all_sports_data feed_down;
     get_player_stats := get_player_stats feed_down;
     get_live_scores := get_live_scores feed_down;
     get_sport_data := get_sport_data feed_down;
     set_sport_data := set_sport_data feed_down;
     cache_get := fun key x => (Ok (content key), x);
     warm_cache := warm_cache feed_down;
     validate_data := validate_data feed_down;
     update_timeliness_metric := update_timeliness_metric feed_down;
     detect_anomalies := detect_anomalies feed_down;
     GameState_of_value := GameState_of_value feed_down;
     update_game_state := update_game_state feed_down;
     time_time := time_time feed_down;
     utcnow_isoformat := utcnow_isoformat feed_down |}.

(** A cache that holds the NBA scores under the fallback key of the NBA,
    and nothing else. *)
Definition nba_scores : PyVal := PyDict [("live_scores", PyList [PyStr "g1"])].

Definition nba_scores_cached (key : string) : PyVal :=
  if String.eqb key "fallback_sports_data_nba" then nba_scores else PyNone.


(** An in-memory cache for the player fetch: a slot is named by sport,
    category, key and user; a lookup returns what was last stored in the
    slot, [None] for a slot never written. The feed answers every player
    request with [player_data] and counts its calls; the monitor finds
    nothing and the clock stands still. *)
Definition CacheSlot : Type := (string * string * string * option string)%type.

Definition slot_eqb (a b : CacheSlot) : bool :=
  match a, b with
  | (s1, c1, k1, u1), (s2, c2, k2, u2) =>
      String.eqb s1 s2 && String.eqb c1 c2 && String.eqb k1 k2
      && match u1, u2 with
         | None, None => true
         | Some x, Some y => String.eqb x y
         | _, _ => false
         end
  end.

Record Memory : Type := {
  store : list (CacheSlot * PyVal);
  feed_calls : nat
}.

Fixpoint store_lookup (slot : CacheSlot) (l : list (CacheSlot * PyVal)) : PyVal :=
  match l with
  | [] => PyNone
  | (slot', v) :: rest => if slot_eqb slot slot' then v else store_lookup slot rest
  end.

Definition memory_backed (player_data : PyVal) : Collaborators Memory :=
  {| get_all_sports_data := fun _ m => (Ok (PyDict []), m);
     get_player_stats := fun _ _ m =>
       (Ok player_data, {| store := store m; feed_calls := S (feed_calls m) |});
     get_live_scores := fun _ m => (Ok PyNone, m);
     get_sport_data := fun s c k u m => (Ok (store_lookup (s, c, k, u) (store m)), m);
     set_sport_data := fun s c k v u m =>
       (Ok tt, {| store := ((s, c, k, u), v) :: store m; feed_calls := feed_calls m |});
     cache_get := fun _ m => (Ok PyNone, m);
     warm_cache := fun _ m => (Ok tt, m);
     validate_data := fun _ _ m => (Ok [], m);
     update_timeliness_metric := fun _ m => (Ok tt, m);
     detect_anomalies := fun _ _ m => (Ok [], m);
     GameState_of_value := fun v => match v with PyStr s => Ok s | _ => Raise ValueError end;
     update_game_state := fun _ _ m => (Ok tt, m);
     time_time := fun m => (0%Q, m);
     utcnow_isoformat := fun m => ("2025-01-01T00:00:00+00:00", m) |}.

(* ===================================================================== *)
(** * Statements about computations                                       *)
(* ===================================================================== *)

(** [needle] occurs in [hay]: somewhere inside, with text before and after. *)
Definition occurs (needle hay : string) : Prop :=
  exists before after, hay = before ++ needle ++ after.

(** One of the keywords occurs in the text. *)
Definition mentions (keywords : list string) (text : string) : Prop :=
  exists k, In k keywords /\ occurs k text.

(** The value is a record (a dict). *)
Definition is_dict (v : PyVal) : bool :=
  match v with PyDict _ => true | _ => false end.

(** The arithmetic mean, as the specification words it. *)
Definition Qsum (xs : list Q) : Q := fold_right Qplus 0%Q xs.

Definition mean (xs : list Q) : Q :=
  (Qsum xs / inject_Z (Z.of_nat (length xs)))%Q.

Section Observations.
Context {Ext : Type}.

#[local] Abbreviation M := (@M Ext).

(** The computation leaves the observation [f] of the world as it was,
    whether it returns or raises. *)
Definition preserves {A T : Type} (f : World Ext -> T) (m : M A) : Prop :=
  forall w, f (snd (m w)) = f w.

(** The computation returns: it raises in no world. *)
Definition returns {A : Type} (m : M A) : Prop :=
  forall w, exists a, fst (m w) = Ok a.

(** The computation does not look at [initialized], nor change it: run with
    the flag set to [b], it does what it does anyway. *)
Definition flag_blind {A : Type} (m : M A) : Prop :=
  forall b w, m (with_initialized b w) = (fst (m w), with_initialized b (snd (m w))).

(** The observation does not depend on the collaborators' state, or on the
    metrics. *)
Definition ignores_ext {T : Type} (f : World Ext -> T) : Prop :=
  forall x w, f (with_ext x w) = f w.

Definition ignores_metrics {T : Type} (f : World Ext -> T) : Prop :=
  forall m w, f (with_metrics m w) = f w.

(** The observation does not depend on the request counter, or on the
    events the bus was handed. *)
Definition ignores_total_requests {T : Type} (f : World Ext -> T) : Prop :=
  forall n w, f (with_metrics (set_total_requests n (integration_metrics w)) w) = f w.

Definition ignores_emitted {T : Type} (f : World Ext -> T) : Prop :=
  forall es w, f (with_emitted es w) = f w.

Definition ignores_handler_calls {T : Type} (f : World Ext -> T) : Prop :=
  forall cs w, f (with_handler_calls cs w) = f w.

(** The computation only hands the bus further events: those it already
    had stay, in order. [emits event m] says that [event] is among the
    further ones. *)
Definition extends {A : Type} (m : M A) : Prop :=
  forall w, exists new, emitted_events (snd (m w)) = (emitted_events w ++ new)%list.

Definition emits {A : Type} (event : CacheEvent) (m : M A) : Prop :=
  forall w, exists new,
    emitted_events (snd (m w)) = (emitted_events w ++ new)%list /\ In event new.

(** A handler that leaves a field of the metrics as it found it. *)
Definition handler_keeps {T : Type} (field : Metrics -> T) (h : Handler Ext) : Prop :=
  forall v s, field (fst (snd (h v s))) = field (fst s).

(** The registry of the event bus holds what [_setup_cache_event_listeners]
    registers, any number of times. *)
Definition registered_by_manager (ls : list (EventType * Listener)) : Prop :=
  Forall (fun tl => tl = (GAME_STATE_CHANGE, game_state_listener)
                    \/ tl = (SCORE_UPDATE, score_update_listener)) ls.

(** The cache answers every lookup: [intelligent_cache_service.get] returns
    a value ([None] for a missing key) and does not raise. *)
Definition cache_lookup_returns (C : Collaborators Ext) : Prop :=
  forall key x, exists v x', cache_get C key x = (Ok v, x').

(** The per-sport data of a fallback envelope: an entry for every requested
    sport, under the sport's value; each entry is either the "unavailable"
    placeholder or a true value the cache returned for the key
    ["fallback_sports_data_" ++ value]. *)
Definition from_cache_or_placeholder (C : Collaborators Ext)
    (sports : list SportType) (fd : PyDictT) : Prop :=
  (forall sport, In sport sports -> dict_mem (SportType_value sport) fd = true) /\
  (forall k v, In (k, v) fd ->
     (exists sport, In sport sports /\ k = SportType_value sport) /\
     (v = unavailable_placeholder \/
      (truthy v = true /\
       exists x x', cache_get C ("fallback_sports_data_" ++ k) x = (Ok v, x')))).

(** The computation changes nothing but the collaborators' state, whether
    it returns or raises. *)
Definition ext_only {A : Type} (m : M A) : Prop :=
  forall w, exists x, snd (m w) = with_ext x w.

(** Every start-up call on the collaborators returns. *)
Definition startup_returns (L : Lifecycle Ext) : Prop :=
  (forall x, fst (pipeline_initialize L x) = Ok tt) /\
  (forall x, fst (cache_initialize L x) = Ok tt) /\
  (forall x, fst (event_cache_initialize L x) = Ok tt) /\
  (forall x, exists v, fst (sportradar_initialize L x) = Ok v) /\
  (forall x, fst (monitor_initialize L x) = Ok tt) /\
  (forall s x, fst (register_alert_callback L s x) = Ok tt) /\
  (forall x, fst (register_reconciliation_rule L x) = Ok tt) /\
  (forall l x, fst (start_push_feeds L l x) = Ok tt) /\
  (forall s x, fst (subscribe_to_updates L s x) = Ok tt).

(** The events a payload without games gives rise to. *)
Definition shape_events (ds : DataSourceType) (data : PyDictT) (now : string)
  : list CacheEvent :=
  ((if dict_mem "odds" data || dict_mem "bookmakers" data
    then [odds_event ds data now] else [])
   ++ (if dict_mem "injuries" data || dict_mem "injury_reports" data
       then [injury_event ds data] else []))%list.

(** What every event derived from a payload satisfies: it names the source
    and the attributed sport; a score update or a game-state change carries
    a true game identifier; an odds change or an injury report carries none;
    a data-source update is never derived. *)
Definition derived_event_ok (ds : DataSourceType) (data : PyDictT) (event : CacheEvent)
  : Prop :=
  source event = DataSourceType_value ds /\
  sport event = _extract_sport_from_data (PyDict data) /\
  match event_type event with
  | SCORE_UPDATE => invalidation_scope event = RELATED /\
                    exists gid, game_id event = Some gid /\ truthy gid = true
  | GAME_STATE_CHANGE => invalidation_scope event = PATTERN /\
                         exists gid, game_id event = Some gid /\ truthy gid = true
  | ODDS_CHANGE => invalidation_scope event = PATTERN /\ game_id event = None
  | INJURY_REPORT => invalidation_scope event = RELATED /\ game_id event = None
  | DATA_SOURCE_UPDATE => False
  end.

(** The computation only hands the bus further events, each satisfying
    [P]. *)
Definition extends_with {A : Type} (P : CacheEvent -> Prop) (m : M A) : Prop :=
  forall w, exists new,
    emitted_events (snd (m w)) = (emitted_events w ++ new)%list /\ Forall P new.

(** How many times the score-update listener is registered for score
    updates. *)
Definition score_listeners (ls : list (EventType * Listener)) : Z :=
  Z.of_nat
    (length (filter (fun tl => match tl with
                               | (SCORE_UPDATE, score_update_listener) => true
                               | _ => false
                               end) ls)).

(** The feed answers every fetch of all sports with a value that is not a
    dict. *)
Definition feed_answers_no_dict (C : Collaborators Ext) : Prop :=
  forall sports x, exists v x',
    get_all_sports_data C sports x = (Ok v, x') /\ is_dict v = false.






End Observations.

(** The table of sport indicators without the two keywords that contain
    another keyword of the same sport ("american_football" contains
    "football", "ice_hockey" contains "hockey"). *)
Definition short_sport_indicators : list (string * list string) :=
  [ ("mlb", ["baseball"; "mlb"]);
    ("nba", ["basketball"; "nba"]);
    ("nfl", ["football"; "nfl"]);
    ("nhl", ["hockey"; "nhl"]) ].


(* ===================================================================== *)
(** * Properties                                                          *)
(* ===================================================================== *)

(** ** Text search *)

Lemma prefix_append (n h : string) :
  String.prefix n h = true <-> exists after, h = n ++ after.
Proof.
  revert h. induction n as [|a n IH]; intros h.
  - split; [intros _; exists h; reflexivity | intros _; now destruct h].
  - destruct h as [|b h]; simpl.
    + split; [discriminate | intros [after H]; discriminate].
    + destruct (ascii_dec a b) as [->|Hab].
      * rewrite IH. split; intros [after H]; exists after.
        -- now rewrite H.
        -- now inversion H.
      * split; [discriminate | intros [after H]; inversion H; congruence].
Qed.

Lemma contains_unfold (n h : string) :
  contains n h =
  if String.prefix n h then true
  else match h with
       | EmptyString => false
       | String _ rest => contains n rest
       end.
Proof. destruct h; reflexivity. Qed.

Lemma contains_occurs (n h : string) : contains n h = true <-> occurs n h.
Proof.
  split.
  - induction h as [|c h IH]; rewrite contains_unfold;
      destruct (String.prefix n _) eqn:E.
    + intros _. apply prefix_append in E. destruct E as [after E].
      exists "", after. exact E.
    + discriminate.
    + intros _. apply prefix_append in E. destruct E as [after E].
      exists "", after. exact E.
    + intros H. destruct (IH H) as (before & after & ->).
      exists (String c before), after. reflexivity.
  - intros (before & after & ->).
    induction before as [|c before IH]; rewrite contains_unfold.
    + assert (E : String.prefix n (n ++ after) = true)
        by (apply prefix_append; eexists; reflexivity).
      simpl. now rewrite E.
    + change (String c before ++ n ++ after) with (String c (before ++ n ++ after)).
      destruct (String.prefix n (String c (before ++ n ++ after)));
        [reflexivity | exact IH].
Qed.

Lemma any_indicator_mentions (l : list string) (t : string) :
  any_indicator l t = true <-> mentions l t.
Proof.
  unfold any_indicator, mentions. rewrite existsb_exists.
  split; intros (k & Hk & H); exists k; split; auto; now apply contains_occurs.
Qed.

Lemma any_indicator_false (l : list string) (t : string) :
  any_indicator l t = false <-> ~ mentions l t.
Proof.
  rewrite <- any_indicator_mentions. destruct (any_indicator l t); split; congruence.
Qed.

(** C10. Sport attribution never raises and answers [None], "mlb", "nba",
    "nfl" or "nhl". When [str] of the payload raises the answer is [None].
    Otherwise the answer is decided by which keyword sets occur anywhere in
    the lower-cased text, in the fixed order mlb, nba, nfl, nhl: a sport is
    the answer exactly when one of its keywords occurs and no keyword of a
    sport before it does, wherever in the text the keywords stand; when no
    keyword occurs the answer is [None]. *)
Theorem sport_attribution_priority (data : PyVal) :
  In (_extract_sport_from_data data)
     [None; Some "mlb"; Some "nba"; Some "nfl"; Some "nhl"] /\
  (forall e, py_str data = Raise e -> _extract_sport_from_data data = None) /\
  (forall s, py_str data = Ok s ->
     let text := lower s in
     let mlb := mentions ["baseball"; "mlb"] text in
     let nba := mentions ["basketball"; "nba"] text in
     let nfl := mentions ["football"; "nfl"; "american_football"] text in
     let nhl := mentions ["hockey"; "nhl"; "ice_hockey"] text in
     (mlb -> _extract_sport_from_data data = Some "mlb") /\
     (~ mlb -> nba -> _extract_sport_from_data data = Some "nba") /\
     (~ mlb -> ~ nba -> nfl -> _extract_sport_from_data data = Some "nfl") /\
     (~ mlb -> ~ nba -> ~ nfl -> nhl -> _extract_sport_from_data data = Some "nhl") /\
     (~ mlb -> ~ nba -> ~ nfl -> ~ nhl -> _extract_sport_from_data data = None)).
Proof.
  unfold _extract_sport_from_data.
  destruct (py_str data) as [s|e].
  - split; [|split; [discriminate|]].
    + unfold sport_indicators, first_sport.
      repeat match goal with
             | |- context [if ?b then _ else _] => destruct b
             end; simpl; tauto.
    + intros s' [= <-]; cbv zeta; unfold sport_indicators, first_sport.
      repeat split.
      * intros H. apply any_indicator_mentions in H. now rewrite H.
      * intros H1 H2. apply any_indicator_false in H1.
        apply any_indicator_mentions in H2. now rewrite H1, H2.
      * intros H1 H2 H3. apply any_indicator_false in H1, H2.
        apply any_indicator_mentions in H3. now rewrite H1, H2, H3.
      * intros H1 H2 H3 H4. apply any_indicator_false in H1, H2, H3.
        apply any_indicator_mentions in H4. now rewrite H1, H2, H3, H4.
      * intros H1 H2 H3 H4. apply any_indicator_false in H1, H2, H3, H4.
        now rewrite H1, H2, H3, H4.
  - split; [simpl; auto | split; [reflexivity | discriminate]].
Qed.

(** A payload whose text names hockey first and baseball after it. *)
Lemma sport_attribution_priority_witness :
  py_str two_sports_payload
    = Ok "{'note': 'hockey night', 'league': 'Baseball'}" /\
  _extract_sport_from_data two_sports_payload = Some "mlb".
Proof.
  split; [reflexivity|].
  apply (proj1 (proj2 (proj2 (sport_attribution_priority two_sports_payload))
                  _ eq_refl)).
  exists "baseball". split; [simpl; auto|].
  apply contains_occurs. reflexivity.
Defined.

(** ** Cache lifetimes *)

Lemma lookup_ttl_spec_base (data_type : string) :
  lookup_ttl data_type 3600 base_ttls = spec_base data_type.
Proof. reflexivity. Qed.

(** C7. For every sport and category the lifetime computed in binary64
    arithmetic is the category's base (30, 1800, 3600, 7200, 600; 3600 for
    an unknown category) times the sport's factor (MLB 1.2, NBA 0.8, NFL
    1.5, NHL 1.0; 1.0 for an unknown sport), truncated to an integer; NBA
    live scores live 24 seconds and NFL schedules 10800. *)
Theorem ttl_is_base_times_multiplier :
  (forall sport data_type,
      _get_sport_specific_cache_ttl sport data_type = Ok (spec_ttl sport data_type)) /\
  _get_sport_specific_cache_ttl NBA "live_scores" = Ok 24 /\
  _get_sport_specific_cache_ttl NFL "schedules" = Ok 10800.
Proof.
  split; [|split; vm_compute; reflexivity].
  intros sport data_type.
  unfold _get_sport_specific_cache_ttl, spec_ttl.
  rewrite lookup_ttl_spec_base. unfold spec_base.
  repeat match goal with
         | |- context [String.eqb data_type ?k] => destruct (String.eqb data_type k)
         end;
    destruct sport; vm_compute; reflexivity.
Qed.

(** ** The running average *)

Section Average.
Context {Ext : Type}.

Lemma update_average_total (a : Q) (n : Z) (x : Q) :
  0 <= n ->
  (update_average a (n + 1) x * inject_Z (n + 1) == a * inject_Z n + x)%Q.
Proof.
  intros Hn. unfold update_average.
  destruct (Z.ltb_spec 1 (n + 1)) as [H|H].
  - replace (n + 1 - 1) with n by lia.
    field. intros H0. unfold Qeq in H0. simpl in H0. lia.
  - assert (n = 0) by lia. subst n. simpl. ring.
Qed.

Lemma record_samples_invariant (xs : list Q) :
  forall (w : World Ext) (total : Q),
    0 <= total_requests (integration_metrics w) ->
    (avg_response_time (integration_metrics w)
       * inject_Z (total_requests (integration_metrics w)) == total)%Q ->
    let r := for_each xs record_sample w in
    fst r = Ok tt /\
    total_requests (integration_metrics (snd r))
      = total_requests (integration_metrics w) + Z.of_nat (length xs) /\
    (avg_response_time (integration_metrics (snd r))
       * inject_Z (total_requests (integration_metrics (snd r)))
     == total + Qsum xs)%Q.
Proof.
  induction xs as [|x xs IH]; intros w total Hn Havg.
  - simpl. repeat split; [lia | rewrite Havg; ring].
  - set (w1 := snd (record_sample x w)).
    assert (E : for_each (x :: xs) record_sample w = for_each xs record_sample w1)
      by reflexivity.
    rewrite E.
    assert (Hn1 : total_requests (integration_metrics w1)
                  = total_requests (integration_metrics w) + 1) by reflexivity.
    destruct (IH w1 (total + x)%Q) as (Hok & Hcount & Hsum).
    + lia.
    + rewrite Hn1. unfold w1; simpl.
      rewrite update_average_total by exact Hn. rewrite Havg. reflexivity.
    + cbv zeta. repeat split.
      * exact Hok.
      * rewrite Hcount, Hn1. simpl length. lia.
      * rewrite Hsum. simpl. ring.
Qed.

(** C8. Starting with no request counted, after [n >= 1] samples, each
    folded in by the update rule right after the request counter was
    incremented for it, the counter is [n] and the average is the arithmetic
    mean of the samples, exactly, in rational arithmetic. *)
Theorem incremental_average_is_mean (xs : list Q) (w : World Ext) :
  xs <> [] ->
  total_requests (integration_metrics w) = 0 ->
  let w' := snd (for_each xs record_sample w) in
  total_requests (integration_metrics w') = Z.of_nat (length xs) /\
  (avg_response_time (integration_metrics w') == mean xs)%Q.
Proof.
  intros Hxs H0.
  destruct (record_samples_invariant xs w 0%Q) as (_ & Hcount & Hsum).
  - lia.
  - rewrite H0. ring.
  - cbv zeta. rewrite H0 in Hcount. simpl in Hcount. split; [exact Hcount|].
    rewrite Hcount in Hsum. unfold mean.
    assert (Hlen : ~ (inject_Z (Z.of_nat (length xs)) == 0)%Q).
    { intros H. unfold Qeq in H. simpl in H. destruct xs; [congruence | simpl in H; lia]. }
    rewrite <- (Qmult_div_r (Qsum xs) (inject_Z (Z.of_nat (length xs)))) by exact Hlen.
    rewrite <- (Qplus_0_l (Qsum xs)), <- Hsum.
    field. exact Hlen.
Qed.

End Average.

(** ** Frame rules *)

Section Frames.
Context {Ext : Type}.

#[local] Abbreviation M := (@M Ext).
Implicit Types w : World Ext.

Lemma preserves_ret {A T} (f : World Ext -> T) (a : A) : preserves f (ret a).
Proof. intros w. reflexivity. Qed.

Lemma preserves_raise {A T} (f : World Ext -> T) (e : exn) : preserves f (@raise Ext A e).
Proof. intros w. reflexivity. Qed.

Lemma preserves_eval {A T} (f : World Ext -> T) (o : outcome A) : preserves f (eval o).
Proof. intros w. reflexivity. Qed.

Lemma preserves_bind {A B T} (f : World Ext -> T) (m : M A) (k : A -> M B) :
  preserves f m -> (forall a, preserves f (k a)) -> preserves f (bind m k).
Proof.
  intros Hm Hk w. unfold bind. specialize (Hm w).
  destruct (m w) as [[a|e] w1]; simpl in *.
  - rewrite Hk. exact Hm.
  - exact Hm.
Qed.

Lemma preserves_try_except {A T} (f : World Ext -> T) (body : M A) (handler : exn -> M A) :
  preserves f body -> (forall e, preserves f (handler e)) ->
  preserves f (try_except body handler).
Proof.
  intros Hm Hk w. unfold try_except. specialize (Hm w).
  destruct (body w) as [[a|e] w1]; simpl in *.
  - exact Hm.
  - rewrite Hk. exact Hm.
Qed.

Lemma preserves_when {T} (f : World Ext -> T) (b : bool) (m : M unit) :
  preserves f m -> preserves f (when b m).
Proof. destruct b; [auto | intros _; apply preserves_ret]. Qed.

Lemma preserves_if {A T} (f : World Ext -> T) (b : bool) (m1 m2 : M A) :
  preserves f m1 -> preserves f m2 -> preserves f (if b then m1 else m2).
Proof. destruct b; auto. Qed.

Lemma preserves_for_each {A T} (f : World Ext -> T) (l : list A) (body : A -> M unit) :
  (forall a, preserves f (body a)) -> preserves f (for_each l body).
Proof.
  intros H. induction l as [|a l IH]; simpl.
  - apply preserves_ret.
  - apply preserves_bind; auto.
Qed.

Lemma preserves_fold_each {A S T} (f : World Ext -> T) (l : list A) (body : S -> A -> M S) :
  (forall s a, preserves f (body s a)) -> forall acc, preserves f (fold_each l acc body).
Proof.
  intros H. induction l as [|a l IH]; intros acc; simpl.
  - apply preserves_ret.
  - apply preserves_bind; auto.
Qed.

Lemma preserves_call {A T} (f : World Ext -> T) (g : Ext -> outcome A * Ext) :
  ignores_ext f -> preserves f (call g).
Proof. intros H w. unfold call. destruct (g (ext w)) as [o x]. apply H. Qed.

Lemma preserves_call_total {A T} (f : World Ext -> T) (g : Ext -> A * Ext) :
  ignores_ext f -> preserves f (call_total g).
Proof. intros H w. unfold call_total. destruct (g (ext w)) as [o x]. apply H. Qed.

Lemma preserves_get_metrics {T} (f : World Ext -> T) : preserves f get_metrics.
Proof. intros w. reflexivity. Qed.

Lemma preserves_put_metrics {T} (f : World Ext -> T) (m : Metrics) :
  ignores_metrics f -> preserves f (put_metrics m).
Proof. intros H w. apply H. Qed.

End Frames.

Create HintDb frame discriminated.
#[export] Hint Resolve preserves_ret preserves_raise preserves_eval preserves_bind
  preserves_try_except preserves_when preserves_if preserves_for_each
  preserves_fold_each preserves_call preserves_call_total preserves_get_metrics
  preserves_put_metrics : frame.

#[export] Hint Extern 1 (ignores_ext _) => (intros ? ?; reflexivity) : frame.
#[export] Hint Extern 1 (ignores_metrics _) => (intros ? ?; reflexivity) : frame.
#[export] Hint Extern 1 (ignores_total_requests _) => (intros ? ?; reflexivity) : frame.
#[export] Hint Extern 1 (ignores_emitted _) => (intros ? ?; reflexivity) : frame.

(** ** Computations that return *)

Section Returns.
Context {Ext : Type}.

#[local] Abbreviation M := (@M Ext).

Lemma returns_ret {A} (a : A) : returns (@ret Ext A a).
Proof. intros w. exists a. reflexivity. Qed.

Lemma returns_bind {A B} (m : M A) (k : A -> M B) :
  returns m -> (forall a, returns (k a)) -> returns (bind m k).
Proof.
  intros Hm Hk w. unfold bind. destruct (Hm w) as [a Ha].
  destruct (m w) as [o w1]; simpl in Ha; subst o. apply Hk.
Qed.

Lemma returns_try_except {A} (body : M A) (handler : exn -> M A) :
  (forall e, returns (handler e)) -> returns (try_except body handler).
Proof.
  intros Hk w. unfold try_except.
  destruct (body w) as [[a|e] w1]; [exists a; reflexivity | apply Hk].
Qed.

Lemma returns_when (b : bool) (m : M unit) : returns m -> returns (when b m).
Proof. destruct b; [auto | intros _; apply returns_ret]. Qed.

Lemma returns_for_each {A} (l : list A) (body : A -> M unit) :
  (forall a, returns (body a)) -> returns (for_each l body).
Proof.
  intros H. induction l as [|a l IH]; simpl.
  - apply returns_ret.
  - apply returns_bind; auto.
Qed.

Lemma returns_call_total {A} (g : Ext -> A * Ext) : returns (call_total g).
Proof.
  intros w. unfold call_total. destruct (g (ext w)) as [a x]. exists a. reflexivity.
Qed.

Lemma returns_unit (m : M unit) w : returns m -> m w = (Ok tt, snd (m w)).
Proof.
  intros H. destruct (H w) as [[] Ha]. rewrite <- Ha. apply surjective_pairing.
Qed.

End Returns.

(** ** The event bus *)

Section Bus.
Context {Ext : Type} (C : Collaborators Ext).

#[local] Abbreviation M := (@M Ext).

Lemma incr_total_requests_preserves {T} (f : World Ext -> T) :
  ignores_total_requests f -> preserves f incr_total_requests.
Proof. intros H w. apply H. Qed.

Lemma run_listener_preserves {T} (f : World Ext -> T) (l : Listener) (event : CacheEvent) :
  ignores_ext f -> ignores_total_requests f -> preserves f (run_listener C l event).
Proof.
  intros Hx Hn. destruct l; unfold run_listener.
  - apply preserves_try_except; [|auto with frame].
    destruct (game_id event) as [gid|]; [|auto with frame].
    destruct (truthy gid); [|auto with frame].
    apply preserves_bind; [auto with frame|]. intros new_state.
    destruct (truthy new_state); auto with frame.
  - apply preserves_try_except; [|auto with frame].
    now apply incr_total_requests_preserves.
Qed.

Lemma dispatch_preserves {T} (f : World Ext -> T) (event : CacheEvent) ls :
  ignores_ext f -> ignores_total_requests f -> preserves f (dispatch C event ls).
Proof.
  intros Hx Hn. unfold dispatch. apply preserves_for_each. intros tl.
  apply preserves_when, preserves_try_except; [|auto with frame].
  now apply run_listener_preserves.
Qed.

Lemma dispatch_returns (event : CacheEvent) ls : returns (dispatch C event ls).
Proof.
  unfold dispatch. apply returns_for_each. intros tl.
  apply returns_when, returns_try_except. intros e. apply returns_ret.
Qed.

Lemma emit_event_returns (event : CacheEvent) : returns (emit_event C event).
Proof. intros w. unfold emit_event. apply dispatch_returns. Qed.

Lemma emit_event_run (event : CacheEvent) (w : World Ext) :
  emit_event C event w = (Ok tt, snd (emit_event C event w)).
Proof. apply returns_unit, emit_event_returns. Qed.

Lemma emit_event_preserves {T} (f : World Ext -> T) (event : CacheEvent) :
  ignores_ext f -> ignores_total_requests f -> ignores_emitted f ->
  preserves f (emit_event C event).
Proof.
  intros Hx Hn He w. unfold emit_event.
  rewrite dispatch_preserves by assumption. apply He.
Qed.

(** The bus is handed the event, after those it already has. *)
Lemma emit_event_emitted (event : CacheEvent) (w : World Ext) :
  emitted_events (snd (emit_event C event w)) = (emitted_events w ++ [event])%list.
Proof.
  unfold emit_event. rewrite dispatch_preserves; auto with frame.
Qed.

(** With the manager's listeners only, an event that is neither a score
    update nor a game-state change reaches no listener. *)
Lemma dispatch_unheard (event : CacheEvent) ls (w : World Ext) :
  registered_by_manager ls ->
  event_type event <> SCORE_UPDATE ->
  event_type event <> GAME_STATE_CHANGE ->
  dispatch C event ls w = (Ok tt, w).
Proof.
  intros Hls H1 H2. unfold dispatch.
  induction Hls as [|tl ls [-> | ->] _ IH]; simpl; [reflexivity| |].
  - unfold bind. destruct (event_type event); simpl; try congruence; exact IH.
  - unfold bind. destruct (event_type event); simpl; try congruence; exact IH.
Qed.

End Bus.

#[export] Hint Extern 1 (ignores_handler_calls _) => (intros ? ?; reflexivity) : frame.

(** ** Quality violations *)

Section Violations.
Context {Ext : Type} (C : Collaborators Ext).
Implicit Types (hs : list (Handler Ext)) (v : QualityViolation) (w : World Ext).

#[local] Abbreviation M := (@M Ext).

Lemma call_handler_preserves {T} (f : World Ext -> T) i (h : Handler Ext) v :
  ignores_ext f -> ignores_metrics f -> ignores_handler_calls f ->
  preserves f (call_handler i h v).
Proof.
  intros Hx Hm Hc w. unfold call_handler.
  destruct (h v (integration_metrics w, ext w)) as [o [m x]]; simpl.
  now rewrite Hc, Hx, Hm.
Qed.

Lemma notify_handlers_preserves {T} (f : World Ext -> T) hs v :
  ignores_ext f -> ignores_metrics f -> ignores_handler_calls f ->
  forall i, preserves f (notify_handlers i hs v).
Proof.
  intros Hx Hm Hc. induction hs as [|h hs IH]; intros i; simpl.
  - apply preserves_ret.
  - apply preserves_bind; [|intros _; apply IH].
    apply preserves_try_except; [|auto with frame].
    now apply call_handler_preserves.
Qed.

Lemma notify_handlers_returns hs v : forall i, returns (notify_handlers i hs v).
Proof.
  induction hs as [|h hs IH]; intros i; simpl.
  - apply returns_ret.
  - apply returns_bind; [|intros _; apply IH].
    apply returns_try_except. intros e. apply returns_ret.
Qed.

(** One step of the loop: the handler runs on the metrics and the
    collaborators' state, the call is recorded, and the loop goes on whether
    the handler returned or raised. *)
Lemma notify_handlers_step i (h : Handler Ext) hs v (w : World Ext) :
  notify_handlers i (h :: hs) v w
  = notify_handlers (S i) hs v
      (with_handler_calls
         (handler_calls w ++ [(i, fst (h v (integration_metrics w, ext w)))])
         (with_ext (snd (snd (h v (integration_metrics w, ext w))))
            (with_metrics (fst (snd (h v (integration_metrics w, ext w)))) w))).
Proof.
  simpl. unfold bind, try_except, call_handler.
  destruct (h v (integration_metrics w, ext w)) as [[[]|e] [m x]]; reflexivity.
Qed.

Lemma notify_handlers_calls hs v :
  forall i (w : World Ext),
  exists calls,
    handler_calls (snd (notify_handlers i hs v w)) = (handler_calls w ++ calls)%list /\
    map fst calls = seq i (length hs) /\
    (forall j o, In (j, o) calls ->
       exists h s, nth_error hs (j - i) = Some h /\ o = fst (h v s)).
Proof.
  induction hs as [|h hs IH]; intros i w.
  - exists []. simpl. rewrite app_nil_r. repeat split. intros j o [].
  - rewrite notify_handlers_step.
    set (s0 := (integration_metrics w, ext w)).
    destruct (IH (S i) (with_handler_calls (handler_calls w ++ [(i, fst (h v s0))])
                           (with_ext (snd (snd (h v s0)))
                              (with_metrics (fst (snd (h v s0))) w))))
      as (calls & Hcalls & Hidx & Hout).
    exists ((i, fst (h v s0)) :: calls). split; [|split].
    + rewrite Hcalls. simpl. now rewrite <- app_assoc.
    + simpl. now rewrite Hidx.
    + intros j o [[= <- <-]|Hin].
      * exists h, s0. rewrite Nat.sub_diag. split; reflexivity.
      * assert (Hj : In j (seq (S i) (length hs)))
          by (rewrite <- Hidx; apply (in_map fst _ _ Hin)).
        apply in_seq in Hj.
        destruct (Hout j o Hin) as (h' & s' & Hnth & Ho).
        exists h', s'. split; [|exact Ho].
        replace (j - i)%nat with (S (j - S i)) by lia. exact Hnth.
Qed.

Lemma notify_handlers_keeps {T} (field : Metrics -> T) hs v :
  (forall h, In h hs -> handler_keeps field h) ->
  forall i, preserves (fun w => field (integration_metrics w)) (notify_handlers i hs v).
Proof.
  induction hs as [|h hs IH]; intros Hk i w.
  - reflexivity.
  - rewrite notify_handlers_step, IH by (intros h' Hh'; apply Hk; now right).
    simpl. apply (Hk h (or_introl eq_refl)).
Qed.

(** [_handle_quality_violation], step by step: the counter, the event when
    the severity asks for one, then the handlers registered at that time. *)
Lemma handle_quality_violation_run v (w : World Ext) :
  let w1 := with_metrics
              (set_data_quality_violations
                 (data_quality_violations (integration_metrics w) + 1)
                 (integration_metrics w)) w in
  let w2 := if is_error_or_critical (severity v)
            then snd (emit_event C (violation_event v) w1) else w1 in
  _handle_quality_violation C v w
  = notify_handlers 0 (quality_alert_handlers w) v w2.
Proof.
  cbv zeta. unfold _handle_quality_violation, bind, get_metrics, put_metrics, when.
  destruct (is_error_or_critical (severity v)).
  - rewrite emit_event_run.
    rewrite (emit_event_preserves C quality_alert_handlers); auto with frame.
  - reflexivity.
Qed.

(** C5. Whatever the severity, handling a violation adds exactly one to the
    quality-violation counter (the registered handlers leaving that counter
    alone). It hands the bus an event exactly when the severity is ERROR or
    CRITICAL, whatever the handlers do:
    then one event, of type DATA_SOURCE_UPDATE and scope PATTERN, whose
    payload carries the rule name and the severity; for WARN, none. *)
Theorem violation_counted_once_and_emitted_by_severity v w :
  let w' := snd (_handle_quality_violation C v w) in
  ((forall h, In h (quality_alert_handlers w) ->
              handler_keeps data_quality_violations h) ->
   data_quality_violations (integration_metrics w')
     = data_quality_violations (integration_metrics w) + 1) /\
  emitted_events w'
    = (emitted_events w ++
       match severity v with
       | WARN => []
       | ERROR | CRITICAL =>
           [ {| event_type := DATA_SOURCE_UPDATE;
                source := DataSourceType_value (data_source v);
                sport := None;
                game_id := None;
                data_category := Some (field_path v);
                payload := Some [ ("violation", PyStr (rule_name v));
                                  ("severity", PyStr (AlertSeverity_value (severity v))) ];
                invalidation_scope := PATTERN |} ]
       end)%list.
Proof.
  cbv zeta. rewrite handle_quality_violation_run. cbv zeta. split.
  - intros Hkeep.
    rewrite (notify_handlers_keeps data_quality_violations) by exact Hkeep.
    destruct (is_error_or_critical (severity v)); [|reflexivity].
    rewrite (emit_event_preserves C
               (fun w => data_quality_violations (integration_metrics w)));
      auto with frame.
  - rewrite (notify_handlers_preserves emitted_events); auto with frame.
    destruct v as [rule sev src path descr]. destruct sev; simpl.
    + now rewrite app_nil_r.
    + rewrite emit_event_emitted. reflexivity.
    + rewrite emit_event_emitted. reflexivity.
Qed.

(** C6. Handling a violation calls every registered handler, once each and
    in registration order, and returns: each recorded call is the call of
    the handler at that position, whether it returned or raised, so a
    handler that raises stops neither the handlers after it nor the
    method. *)
Theorem every_handler_is_notified v w :
  fst (_handle_quality_violation C v w) = Ok tt /\
  exists calls,
    handler_calls (snd (_handle_quality_violation C v w))
      = (handler_calls w ++ calls)%list /\
    map fst calls = seq 0 (length (quality_alert_handlers w)) /\
    (forall j o, In (j, o) calls ->
       exists h s, nth_error (quality_alert_handlers w) j = Some h /\ o = fst (h v s)).
Proof.
  rewrite handle_quality_violation_run. cbv zeta.
  set (w2 := if is_error_or_critical (severity v) then _ else _).
  split.
  - rewrite (returns_unit _ w2 (notify_handlers_returns _ v 0)). reflexivity.
  - destruct (notify_handlers_calls (quality_alert_handlers w) v 0%nat w2)
      as (calls & Hcalls & Hidx & Hout).
    exists calls. split; [|split].
    + rewrite Hcalls. f_equal. unfold w2.
      destruct (is_error_or_critical (severity v)); [|reflexivity].
      rewrite (emit_event_preserves C handler_calls); auto with frame.
    + exact Hidx.
    + intros j o Hin. destruct (Hout j o Hin) as (h & s & Hnth & Ho).
      exists h, s. rewrite Nat.sub_0_r in Hnth. auto.
Qed.

(** C9. When no registered handler changes the metrics (and the bus holds
    the manager's own listeners), handling a violation leaves the request
    counter, the cache-hit counter, the discrepancy counter and the average
    response time as they were. *)
Theorem violation_handling_frames_other_metrics v w :
  (forall h, In h (quality_alert_handlers w) -> handler_keeps (fun m => m) h) ->
  registered_by_manager (event_listeners w) ->
  let m' := integration_metrics (snd (_handle_quality_violation C v w)) in
  total_requests m' = total_requests (integration_metrics w) /\
  cache_hits m' = cache_hits (integration_metrics w) /\
  cross_source_discrepancies m' = cross_source_discrepancies (integration_metrics w) /\
  avg_response_time m' = avg_response_time (integration_metrics w).
Proof.
  intros Hkeep Hreg. cbv zeta. rewrite handle_quality_violation_run. cbv zeta.
  rewrite (notify_handlers_keeps (fun m => m)) by exact Hkeep.
  destruct (is_error_or_critical (severity v)).
  - unfold emit_event. rewrite dispatch_unheard; try exact Hreg; try discriminate.
    repeat split.
  - repeat split.
Qed.

End Violations.

Lemma violation_counted_once_and_emitted_by_severity_witness :
  let w' := snd (_handle_quality_violation feed_down stale_odds manager_with_handlers) in
  data_quality_violations (integration_metrics w') = 1 /\
  length (emitted_events w') = 1%nat.
Proof.
  destruct (violation_counted_once_and_emitted_by_severity feed_down stale_odds
              manager_with_handlers) as [Hcount Hevents].
  cbv zeta. rewrite Hcount, Hevents.
  - split; reflexivity.
  - intros h [<-|[<-|[]]] v s; reflexivity.
Defined.

Lemma violation_handling_frames_other_metrics_witness :
  total_requests
    (integration_metrics
       (snd (_handle_quality_violation feed_down stale_odds manager_with_handlers))) = 0.
Proof.
  destruct (violation_handling_frames_other_metrics feed_down stale_odds
              manager_with_handlers) as [Htotal _].
  - intros h [<-|[<-|[]]] v s; reflexivity.
  - unfold registered_by_manager. simpl. auto.
  - rewrite Htotal. reflexivity.
Defined.

(** The raising handler is called first and raises; the quiet one is called
    all the same. *)
Example raising_handler_does_not_stop_the_next :
  _handle_quality_violation feed_down stale_odds manager_with_handlers
  = (Ok tt,
     with_handler_calls
       [(0%nat, Raise (PyExc "RuntimeError" "pager unreachable")); (1%nat, Ok tt)]
       (with_emitted [violation_event stale_odds]
          (with_metrics (set_data_quality_violations 1 initial_metrics)
             manager_with_handlers))).
Proof. reflexivity. Qed.

Lemma incremental_average_is_mean_witness :
  total_requests
    (integration_metrics
       (snd (for_each [2 # 1; 4 # 1; 9 # 1]%Q record_sample (new_manager tt)))) = 3 /\
  (avg_response_time
     (integration_metrics
        (snd (for_each [2 # 1; 4 # 1; 9 # 1]%Q record_sample (new_manager tt))))
   == mean [2 # 1; 4 # 1; 9 # 1])%Q.
Proof.
  apply (incremental_average_is_mean [2 # 1; 4 # 1; 9 # 1]%Q (new_manager tt)).
  - discriminate.
  - reflexivity.
Defined.

(** ** Event derivation *)

Section Extends.
Context {Ext : Type}.

#[local] Abbreviation M := (@M Ext).

Lemma preserves_extends {A} (m : M A) : preserves emitted_events m -> extends m.
Proof. intros H w. exists []. now rewrite H, app_nil_r. Qed.

Lemma extends_bind {A B} (m : M A) (k : A -> M B) :
  extends m -> (forall a, extends (k a)) -> extends (bind m k).
Proof.
  intros Hm Hk w. unfold bind. destruct (Hm w) as [n1 H1].
  destruct (m w) as [[a|e] w1]; simpl in *.
  - destruct (Hk a w1) as [n2 H2]. exists (n1 ++ n2)%list.
    now rewrite H2, H1, app_assoc.
  - now exists n1.
Qed.

Lemma extends_try_except {A} (body : M A) (handler : exn -> M A) :
  extends body -> (forall e, extends (handler e)) -> extends (try_except body handler).
Proof.
  intros Hm Hk w. unfold try_except. destruct (Hm w) as [n1 H1].
  destruct (body w) as [[a|e] w1]; simpl in *.
  - now exists n1.
  - destruct (Hk e w1) as [n2 H2]. exists (n1 ++ n2)%list.
    now rewrite H2, H1, app_assoc.
Qed.

Lemma extends_when (b : bool) (m : M unit) : extends m -> extends (when b m).
Proof.
  destruct b; [auto | intros _; apply preserves_extends, preserves_ret].
Qed.

Lemma extends_for_each {A} (l : list A) (body : A -> M unit) :
  (forall a, extends (body a)) -> extends (for_each l body).
Proof.
  intros H. induction l as [|a l IH]; simpl.
  - apply preserves_extends, preserves_ret.
  - apply extends_bind; auto.
Qed.

(** The event comes from the first part; the rest only adds to it. *)
Lemma emits_bind_first {A B} event (m : M A) (k : A -> M B) :
  emits event m -> (forall a, extends (k a)) -> emits event (bind m k).
Proof.
  intros Hm Hk w. unfold bind. destruct (Hm w) as (n1 & H1 & Hin).
  destruct (m w) as [[a|e] w1]; simpl in *.
  - destruct (Hk a w1) as [n2 H2]. exists (n1 ++ n2)%list. split.
    + now rewrite H2, H1, app_assoc.
    + apply in_or_app. now left.
  - now exists n1.
Qed.

(** The first part returns, and the event comes from the rest. *)
Lemma emits_bind_then {A B} event (m : M A) (k : A -> M B) :
  returns m -> extends m -> (forall a, emits event (k a)) -> emits event (bind m k).
Proof.
  intros Hr Hm Hk w. unfold bind. destruct (Hm w) as [n1 H1].
  destruct (Hr w) as [a Ha].
  destruct (m w) as [o w1]; simpl in *. subst o.
  destruct (Hk a w1) as (n2 & H2 & Hin). exists (n1 ++ n2)%list. split.
  - now rewrite H2, H1, app_assoc.
  - apply in_or_app. now right.
Qed.

Lemma emits_try_except {A} event (body : M A) (handler : exn -> M A) :
  emits event body -> (forall e, extends (handler e)) ->
  emits event (try_except body handler).
Proof.
  intros Hm Hk w. unfold try_except. destruct (Hm w) as (n1 & H1 & Hin).
  destruct (body w) as [[a|e] w1]; simpl in *.
  - now exists n1.
  - destruct (Hk e w1) as [n2 H2]. exists (n1 ++ n2)%list. split.
    + now rewrite H2, H1, app_assoc.
    + apply in_or_app. now left.
Qed.

(** In a loop: the steps before the one that emits return, and no step
    takes an event back. *)
Lemma emits_for_each {A} event (before : list A) (x : A) (after : list A)
    (body : A -> M unit) :
  (forall a, In a before -> returns (body a)) ->
  (forall a, extends (body a)) ->
  emits event (body x) ->
  emits event (for_each (before ++ x :: after) body).
Proof.
  intros Hret Hext Hx. induction before as [|a before IH]; simpl.
  - apply emits_bind_first; [exact Hx|]. intros _. now apply extends_for_each.
  - apply emits_bind_then.
    + apply Hret. now left.
    + apply Hext.
    + intros _. apply IH. intros a' Ha'. apply Hret. now right.
Qed.

End Extends.

Section Derivation.
Context {Ext : Type} (C : Collaborators Ext).
Implicit Types (w : World Ext) (data g : PyDictT).

#[local] Abbreviation M := (@M Ext).

Lemma emit_event_extends event : extends (emit_event C event).
Proof. intros w. exists [event]. apply emit_event_emitted. Qed.

Lemma emit_for_game_extends ds data game : extends (emit_for_game C ds data game).
Proof.
  unfold emit_for_game.
  apply extends_bind; [apply preserves_extends; auto with frame|]. intros gid.
  destruct (negb (truthy gid)); [apply preserves_extends; auto with frame|].
  apply extends_bind; [apply preserves_extends; auto with frame|]. intros hs.
  apply extends_bind; [apply preserves_extends; auto with frame|]. intros aws.
  apply extends_bind; [apply extends_when, emit_event_extends|]. intros _.
  apply extends_bind; [apply preserves_extends; auto with frame|]. intros st.
  apply extends_when, emit_event_extends.
Qed.

(** On a record the loop body returns. *)
Lemma emit_for_game_returns ds data g : returns (emit_for_game C ds data (PyDict g)).
Proof.
  unfold emit_for_game, py_get.
  apply returns_bind; [intros w; eexists; reflexivity|]. intros gid.
  destruct (negb (truthy gid)); [apply returns_ret|].
  apply returns_bind; [intros w; eexists; reflexivity|]. intros hs.
  apply returns_bind; [intros w; eexists; reflexivity|]. intros aws.
  apply returns_bind; [apply returns_when, emit_event_returns|]. intros _.
  apply returns_bind; [intros w; eexists; reflexivity|]. intros st.
  apply returns_when, emit_event_returns.
Qed.

(** What the loop body does on a record, step by step. *)
Lemma emit_for_game_record ds data g w :
  emit_for_game C ds data (PyDict g) w
  = (Ok tt,
     if truthy (dict_get "id" g) then
       let w1 :=
         if negb (is_none (dict_get "home_score" g))
            || negb (is_none (dict_get "away_score" g))
         then snd (emit_event C (score_update_event ds data (dict_get "id" g)
                                   (dict_get "home_score" g) (dict_get "away_score" g)) w)
         else w in
       if truthy (dict_get "status" g)
       then snd (emit_event C (game_state_event ds data (dict_get "id" g)
                                 (dict_get "status" g)) w1)
       else w1
     else w).
Proof.
  unfold emit_for_game, bind, eval, when, py_get, ret.
  destruct (truthy (dict_get "id" g)); simpl; [|reflexivity].
  destruct (negb (is_none (dict_get "home_score" g))
            || negb (is_none (dict_get "away_score" g)));
    [rewrite emit_event_run|];
    (destruct (truthy (dict_get "status" g)); [rewrite emit_event_run|]; reflexivity).
Qed.

Lemma emit_for_game_score ds data g :
  truthy (dict_get "id" g) = true ->
  dict_get "home_score" g <> PyNone \/ dict_get "away_score" g <> PyNone ->
  emits (score_update_event ds data (dict_get "id" g)
           (dict_get "home_score" g) (dict_get "away_score" g))
        (emit_for_game C ds data (PyDict g)).
Proof.
  intros Hid Hscore w. rewrite emit_for_game_record, Hid. cbv zeta.
  assert (Hcond : negb (is_none (dict_get "home_score" g))
                  || negb (is_none (dict_get "away_score" g)) = true).
  { destruct Hscore as [H|H];
      [destruct (dict_get "home_score" g) | destruct (dict_get "away_score" g)];
      try congruence; simpl; auto using orb_true_r. }
  rewrite Hcond. simpl snd.
  destruct (truthy (dict_get "status" g)).
  - eexists. rewrite !emit_event_emitted, <- app_assoc. split; [reflexivity|].
    simpl. auto.
  - eexists. rewrite emit_event_emitted. split; [reflexivity|]. simpl. auto.
Qed.

Lemma dict_get_present (k : string) data (v : PyVal) :
  dict_get k data = v -> v <> PyNone ->
  dict_mem k data = true /\ forall default, dict_get_default k default data = v.
Proof.
  unfold dict_get. induction data as [|[k' v'] data IH]; simpl; intros Hget Hv.
  - congruence.
  - destruct (String.eqb k k'); [split; auto|]. now apply IH.
Qed.

Lemma emit_cache_events_extends ds data :
  extends (_emit_cache_events_from_data C ds data).
Proof.
  unfold _emit_cache_events_from_data.
  apply extends_try_except; [|intros e; apply preserves_extends; auto with frame].
  apply extends_bind; [|intros _; apply extends_bind; [|intros _]].
  - apply extends_when, extends_bind; [apply preserves_extends; auto with frame|].
    intros games. apply extends_for_each. intros game. apply emit_for_game_extends.
  - apply extends_when, extends_bind; [apply preserves_extends; auto with frame|].
    intros now. apply emit_event_extends.
  - apply extends_when, emit_event_extends.
Qed.

(** C2. For the payload [{games: [{id: "g1", home_score: 3, away_score: 2,
    status: "live"}]}] from the primary feed, the bus is handed exactly two
    events, in this order: a SCORE_UPDATE of scope RELATED for game "g1"
    carrying both scores, and a GAME_STATE_CHANGE of scope PATTERN for game
    "g1" with new state "live". No other event (no ODDS_CHANGE, no
    INJURY_REPORT) is emitted, and the method returns. *)
Theorem g1_payload_emits_score_and_state w :
  fst (_emit_cache_events_from_data C SPORTRADAR g1_payload w) = Ok tt /\
  emitted_events (snd (_emit_cache_events_from_data C SPORTRADAR g1_payload w))
  = (emitted_events w ++
     [ {| event_type := SCORE_UPDATE;
          source := DataSourceType_value SPORTRADAR;
          sport := None;
          game_id := Some (PyStr "g1");
          data_category := None;
          payload := Some [("home_score", PyInt 3); ("away_score", PyInt 2)];
          invalidation_scope := RELATED |};
       {| event_type := GAME_STATE_CHANGE;
          source := DataSourceType_value SPORTRADAR;
          sport := None;
          game_id := Some (PyStr "g1");
          data_category := None;
          payload := Some [("new_state", PyStr "live")];
          invalidation_scope := PATTERN |} ])%list.
Proof.
  unfold _emit_cache_events_from_data, g1_payload.
  unfold try_except, bind at 1 2 3. simpl dict_mem. simpl orb. unfold when.
  unfold bind, eval, ret. simpl py_iter. unfold for_each, bind, ret.
  rewrite emit_for_game_record. simpl.
  rewrite !emit_event_emitted, <- app_assoc. split; reflexivity.
Qed.

(** C3, as the code has it. In a payload whose games are a list, take a
    game record reached by the loop (the entries before it are records)
    whose identifier is true. If its home score or its away score is not
    null, the bus is handed a SCORE_UPDATE event of scope RELATED for that
    game, carrying both score fields. A score field that is present and
    null counts as absent. *)
Theorem score_update_for_game_with_a_score ds data before g after w :
  dict_get "games" data = PyList (before ++ PyDict g :: after) ->
  Forall (fun game => is_dict game = true) before ->
  truthy (dict_get "id" g) = true ->
  dict_get "home_score" g <> PyNone \/ dict_get "away_score" g <> PyNone ->
  exists new,
    emitted_events (snd (_emit_cache_events_from_data C ds data w))
      = (emitted_events w ++ new)%list /\
    In {| event_type := SCORE_UPDATE;
          source := DataSourceType_value ds;
          sport := _extract_sport_from_data (PyDict data);
          game_id := Some (dict_get "id" g);
          data_category := None;
          payload := Some [("home_score", dict_get "home_score" g);
                           ("away_score", dict_get "away_score" g)];
          invalidation_scope := RELATED |} new.
Proof.
  intros Hgames Hbefore Hid Hscore. revert w.
  change (emits (score_update_event ds data (dict_get "id" g)
                   (dict_get "home_score" g) (dict_get "away_score" g))
                (_emit_cache_events_from_data C ds data)).
  destruct (dict_get_present "games" data _ Hgames) as [Hmem Hget]; [discriminate|].
  unfold _emit_cache_events_from_data. rewrite Hmem, Hget.
  apply emits_try_except; [|intros e; apply preserves_extends; auto with frame].
  apply emits_bind_first.
  - simpl when. simpl py_iter.
    intros w. change (bind (eval (Ok ?l)) ?k w) with (k l w). revert w.
    apply emits_for_each.
    + intros game Hgame. rewrite Forall_forall in Hbefore.
      specialize (Hbefore game Hgame). destruct game; try discriminate.
      apply emit_for_game_returns.
    + intros game. apply emit_for_game_extends.
    + now apply emit_for_game_score.
  - intros _. apply extends_bind; [|intros _].
    + apply extends_when, extends_bind; [apply preserves_extends; auto with frame|].
      intros now. apply emit_event_extends.
    + apply extends_when, emit_event_extends.
Qed.

End Derivation.

Lemma score_update_for_game_with_a_score_witness :
  exists new,
    emitted_events
      (snd (_emit_cache_events_from_data feed_down SPORTRADAR away_score_payload
              manager_with_handlers))
      = ([] ++ new)%list /\
    In {| event_type := SCORE_UPDATE;
          source := "sportradar";
          sport := None;
          game_id := Some (PyStr "g7");
          data_category := None;
          payload := Some [("home_score", PyNone); ("away_score", PyInt 0)];
          invalidation_scope := RELATED |} new.
Proof.
  apply (score_update_for_game_with_a_score feed_down SPORTRADAR away_score_payload
           [] away_score_game [] manager_with_handlers).
  - reflexivity.
  - constructor.
  - reflexivity.
  - right. discriminate.
Defined.

(** C3 as worded does not hold: the home-score field of the game is
    present, its value is null, the identifier is not empty, and no event at
    all is emitted. *)
Lemma null_score_field_emits_no_score_update :
  dict_get "games" null_score_payload = PyList [PyDict null_score_game] /\
  dict_mem "home_score" null_score_game = true /\
  truthy (dict_get "id" null_score_game) = true /\
  fst (_emit_cache_events_from_data feed_down SPORTRADAR null_score_payload
         manager_with_handlers) = Ok tt /\
  emitted_events
    (snd (_emit_cache_events_from_data feed_down SPORTRADAR null_score_payload
            manager_with_handlers)) = [].
Proof. repeat split. Qed.

(** ** The read path *)

Section Readiness.
Context {Ext : Type} (C : Collaborators Ext).

#[local] Abbreviation M := (@M Ext).

Lemma flag_blind_ret {A} (a : A) : flag_blind (@ret Ext A a).
Proof. intros b w. reflexivity. Qed.

Lemma flag_blind_eval {A} (o : outcome A) : flag_blind (@eval Ext A o).
Proof. intros b w. reflexivity. Qed.

Lemma flag_blind_bind {A B} (m : M A) (k : A -> M B) :
  flag_blind m -> (forall a, flag_blind (k a)) -> flag_blind (bind m k).
Proof.
  intros Hm Hk b w. unfold bind. rewrite Hm.
  destruct (m w) as [[a|e] w1]; simpl; [apply Hk | reflexivity].
Qed.

Lemma flag_blind_try_except {A} (body : M A) (handler : exn -> M A) :
  flag_blind body -> (forall e, flag_blind (handler e)) ->
  flag_blind (try_except body handler).
Proof.
  intros Hm Hk b w. unfold try_except. rewrite Hm.
  destruct (body w) as [[a|e] w1]; simpl; [reflexivity | apply Hk].
Qed.

Lemma flag_blind_when (c : bool) (m : M unit) : flag_blind m -> flag_blind (when c m).
Proof. destruct c; [auto | intros _; apply flag_blind_ret]. Qed.

Lemma flag_blind_if {A} (c : bool) (m1 m2 : M A) :
  flag_blind m1 -> flag_blind m2 -> flag_blind (if c then m1 else m2).
Proof. destruct c; auto. Qed.

Lemma flag_blind_for_each {A} (l : list A) (body : A -> M unit) :
  (forall a, flag_blind (body a)) -> flag_blind (for_each l body).
Proof.
  intros H. induction l as [|a l IH]; simpl.
  - apply flag_blind_ret.
  - apply flag_blind_bind; auto.
Qed.

Lemma flag_blind_fold_each {A S} (l : list A) (body : S -> A -> M S) :
  (forall s a, flag_blind (body s a)) -> forall acc, flag_blind (fold_each l acc body).
Proof.
  intros H. induction l as [|a l IH]; intros acc; simpl.
  - apply flag_blind_ret.
  - apply flag_blind_bind; auto.
Qed.

Lemma flag_blind_call {A} (g : Ext -> outcome A * Ext) : flag_blind (call g).
Proof. intros b w. unfold call. simpl. destruct (g (ext w)); reflexivity. Qed.

Lemma flag_blind_call_total {A} (g : Ext -> A * Ext) : flag_blind (call_total g).
Proof. intros b w. unfold call_total. simpl. destruct (g (ext w)); reflexivity. Qed.

Lemma flag_blind_get_metrics : flag_blind (@get_metrics Ext).
Proof. intros b w. reflexivity. Qed.

Lemma flag_blind_put_metrics (m : Metrics) : flag_blind (@put_metrics Ext m).
Proof. intros b w. reflexivity. Qed.

End Readiness.

Create HintDb blind discriminated.
#[export] Hint Resolve flag_blind_ret flag_blind_eval flag_blind_bind
  flag_blind_try_except flag_blind_when flag_blind_if flag_blind_for_each
  flag_blind_fold_each flag_blind_call flag_blind_call_total
  flag_blind_get_metrics flag_blind_put_metrics : blind.

Section ReadPath.
Context {Ext : Type} (C : Collaborators Ext).
Implicit Types (w : World Ext) (sport : SportType).

#[local] Abbreviation M := (@M Ext).

Lemma incr_total_requests_blind : flag_blind (@incr_total_requests Ext).
Proof. unfold incr_total_requests. auto with blind. Qed.

Lemma update_response_time_blind t : flag_blind (@_update_response_time_metric Ext t).
Proof. unfold _update_response_time_metric. auto with blind. Qed.

Lemma monitor_incoming_data_blind ds data : flag_blind (_monitor_incoming_data C ds data).
Proof. unfold _monitor_incoming_data. auto 10 with blind. Qed.

Lemma get_fallback_data_blind sports : flag_blind (_get_fallback_data C sports).
Proof.
  unfold _get_fallback_data. apply flag_blind_bind; [|auto with blind].
  apply flag_blind_fold_each. unfold fallback_turn. auto with blind.
Qed.

Lemma fetch_comprehensive_blind start sports :
  flag_blind (fetch_comprehensive C start sports).
Proof.
  unfold fetch_comprehensive.
  pose proof incr_total_requests_blind. pose proof update_response_time_blind.
  pose proof monitor_incoming_data_blind.
  auto 12 with blind.
Qed.

Lemma warm_related_caches_blind sport live_data :
  flag_blind (_warm_related_caches C sport live_data).
Proof. unfold _warm_related_caches. auto 10 with blind. Qed.

(** C4, as the code has it. No public read method looks at [initialized]:
    run in a world where the flag is [b] (ready or not), each of the three
    does exactly what it does anyway, result and effects, and leaves the
    flag as it was. There is no NotInitialized failure. *)
Theorem read_methods_ignore_initialized :
  (forall sport_opt, flag_blind (get_comprehensive_sports_data C sport_opt)) /\
  (forall sport player_id user_id,
      flag_blind (get_enhanced_player_data C sport player_id user_id)) /\
  (forall sport, flag_blind (get_live_scores_with_quality_monitoring C sport)).
Proof.
  pose proof incr_total_requests_blind. pose proof update_response_time_blind.
  pose proof monitor_incoming_data_blind. pose proof get_fallback_data_blind.
  pose proof fetch_comprehensive_blind. pose proof warm_related_caches_blind.
  split; [|split].
  - intros sport_opt. unfold get_comprehensive_sports_data.
    apply flag_blind_bind; [auto with blind|]. intros start b w.
    change (sports_to_fetch sport_opt (with_initialized b w))
      with (sports_to_fetch sport_opt w).
    apply flag_blind_try_except; auto.
  - intros sport player_id user_id. unfold get_enhanced_player_data.
    auto 15 with blind.
  - intros sport. unfold get_live_scores_with_quality_monitoring.
    auto 12 with blind.
Qed.

End ReadPath.

(** C4 as worded does not hold: a manager that was never initialised serves
    the three read methods like any other, answering with the feed's data
    and counting the request; nothing raises and no error is returned. *)
Lemma uninitialized_fetch_proceeds :
  initialized (new_manager tt) = false /\
  fst (get_comprehensive_sports_data feed_up (Some MLB) (new_manager tt))
  = Ok (Envelope (PyDict [("mlb", PyDict [("live_scores", PyList [PyStr "g1"])])])
          (api_metadata "2025-01-01T00:00:00+00:00" (0 - 0)%Q)) /\
  total_requests
    (integration_metrics
       (snd (get_comprehensive_sports_data feed_up (Some MLB) (new_manager tt)))) = 1 /\
  fst (get_enhanced_player_data feed_up MLB "p42" None (new_manager tt))
  = Ok (Envelope (PyDict [("hits", PyInt 2)])
          (miss_metadata "2025-01-01T00:00:00+00:00" (0 - 0)%Q 0)) /\
  fst (get_live_scores_with_quality_monitoring feed_up MLB (new_manager tt))
  = Ok (Envelope (PyDict [("games", PyList [])])
          (live_metadata "2025-01-01T00:00:00+00:00")).
Proof. repeat split. Qed.

(** ** Fallback data *)

Lemma dict_mem_set_same (k : string) (v : PyVal) (d : PyDictT) :
  dict_mem k (dict_set k v d) = true.
Proof.
  induction d as [|[k' v'] d IH]; simpl.
  - now rewrite String.eqb_refl.
  - destruct (String.eqb k k') eqn:E; simpl;
      [rewrite String.eqb_refl | rewrite E]; auto.
Qed.

Lemma dict_mem_set_other (k k' : string) (v : PyVal) (d : PyDictT) :
  dict_mem k' d = true -> dict_mem k' (dict_set k v d) = true.
Proof.
  induction d as [|[k0 v0] d IH]; simpl; [discriminate|].
  destruct (String.eqb k k0) eqn:E; simpl.
  - apply String.eqb_eq in E. subst k0. auto.
  - destruct (String.eqb k' k0); auto.
Qed.

Lemma in_dict_set (k k' : string) (v v' : PyVal) (d : PyDictT) :
  In (k', v') (dict_set k v d) -> (k', v') = (k, v) \/ In (k', v') d.
Proof.
  induction d as [|[k0 v0] d IH]; simpl.
  - intros [H|[]]. now left.
  - destruct (String.eqb k k0); simpl.
    + intros [H|H]; auto.
    + intros [H|H]; auto. destruct (IH H); auto.
Qed.







Section Fallback.
Context {Ext : Type} (C : Collaborators Ext).
Implicit Types (w : World Ext) (sport : SportType).

#[local] Abbreviation M := (@M Ext).

Lemma fallback_loop (sports : list SportType) :
  cache_lookup_returns C ->
  forall acc w,
  exists fd w',
    fold_each sports acc (fallback_turn C) w = (Ok fd, w') /\
    (forall k, dict_mem k acc = true -> dict_mem k fd = true) /\
    (forall sport, In sport sports -> dict_mem (SportType_value sport) fd = true) /\
    (forall k v, In (k, v) fd ->
       In (k, v) acc \/
       ((exists sport, In sport sports /\ k = SportType_value sport) /\
        (v = unavailable_placeholder \/
         (truthy v = true /\
          exists x x', cache_get C ("fallback_sports_data_" ++ k) x = (Ok v, x'))))).
Proof.
  intros Hcache. induction sports as [|sport sports IH]; intros acc w.
  - exists acc, w. split; [reflexivity|]. split; [auto|].
    split; [intros sport []|]. auto.
  - simpl. unfold bind at 1. unfold fallback_turn at 1. unfold bind, call.
    destruct (Hcache (fallback_key sport) (ext w)) as (v & x' & Hget).
    rewrite Hget.
    set (acc' := dict_set (SportType_value sport)
                   (if truthy v then v else unavailable_placeholder) acc).
    destruct (IH acc' (with_ext x' w)) as (fd & w' & Hrun & Hmem & Hall & Hin).
    exists fd, w'. split; [|split; [|split]].
    + rewrite <- Hrun. unfold acc'. destruct (truthy v); reflexivity.
    + intros k Hk. apply Hmem. unfold acc'. now apply dict_mem_set_other.
    + intros sport' [<-|Hs]; [|now apply Hall].
      apply Hmem. unfold acc'. apply dict_mem_set_same.
    + intros k v0 Hkv. destruct (Hin k v0 Hkv) as [Hacc|[[s' [Hs' Hk]] Hv]].
      * unfold acc' in Hacc. apply in_dict_set in Hacc.
        destruct Hacc as [[= -> ->]|Hacc]; [right | now left].
        split; [exists sport; split; [now left | reflexivity]|].
        destruct (truthy v) eqn:Htrue; [right | now left].
        split; [exact Htrue|]. now exists (ext w), x'.
      * right. split; [|exact Hv]. exists s'. split; [now right | exact Hk].
Qed.

(** With a cache that answers, [_get_fallback_data] returns the fallback
    envelope. *)
Lemma get_fallback_data_returns (sports : list SportType) w :
  cache_lookup_returns C ->
  exists fd stamp w',
    _get_fallback_data C sports w
      = (Ok (Envelope (PyDict fd) (fallback_metadata stamp)), w') /\
    from_cache_or_placeholder C sports fd.
Proof.
  intros Hcache.
  destruct (fallback_loop sports Hcache [] w) as (fd & w1 & Hrun & _ & Hall & Hin).
  unfold _get_fallback_data. unfold bind at 1. unfold PyDictT in *.
  rewrite Hrun. unfold bind, call_total, ret.
  destruct (utcnow_isoformat C (ext w1)) as [stamp x].
  exists fd, stamp, (with_ext x w1). split; [reflexivity|].
  split; [exact Hall|].
  intros k v Hkv. destruct (Hin k v Hkv) as [[]|H]. exact H.
Qed.






End Fallback.



(** The same fetch, evaluated: the four sports in the order of the active
    list, the NBA served from the cache. *)
Example cached_sport_is_served :
  fst (get_comprehensive_sports_data (feed_down_with_cache nba_scores_cached)
         None (new_manager tt))
  = Ok (Envelope (PyDict [("mlb", unavailable_placeholder); ("nba", nba_scores);
                          ("nfl", unavailable_placeholder);
                          ("nhl", unavailable_placeholder)])
          (fallback_metadata "2025-01-01T00:00:00+00:00")).
Proof. reflexivity. Qed.

(** The feed is down and the cache is empty: the answer is the placeholder
    under the requested sport. *)
Example feed_down_gives_placeholder :
  fst (get_comprehensive_sports_data feed_down (Some NBA) manager_with_handlers)
  = Ok (Envelope (PyDict [("nba", unavailable_placeholder)])
          (fallback_metadata "2025-01-01T00:00:00+00:00")).
Proof. reflexivity. Qed.

(* ===================================================================== *)
(** * Further properties                                                  *)
(* ===================================================================== *)

(** ** Event derivation, beyond the score update *)

Section ExtendsWith.
Context {Ext : Type}.

#[local] Abbreviation M := (@M Ext).

Lemma preserves_extends_with {A} P (m : M A) :
  preserves emitted_events m -> extends_with P m.
Proof. intros H w. exists []. rewrite H, app_nil_r. split; [reflexivity | constructor]. Qed.

Lemma extends_with_bind {A B} P (m : M A) (k : A -> M B) :
  extends_with P m -> (forall a, extends_with P (k a)) -> extends_with P (bind m k).
Proof.
  intros Hm Hk w. unfold bind. destruct (Hm w) as (n1 & H1 & P1).
  destruct (m w) as [[a|e] w1]; simpl in *.
  - destruct (Hk a w1) as (n2 & H2 & P2). exists (n1 ++ n2)%list. split.
    + now rewrite H2, H1, app_assoc.
    + apply Forall_app. now split.
  - now exists n1.
Qed.

Lemma extends_with_try_except {A} P (body : M A) (handler : exn -> M A) :
  extends_with P body -> (forall e, extends_with P (handler e)) ->
  extends_with P (try_except body handler).
Proof.
  intros Hm Hk w. unfold try_except. destruct (Hm w) as (n1 & H1 & P1).
  destruct (body w) as [[a|e] w1]; simpl in *.
  - now exists n1.
  - destruct (Hk e w1) as (n2 & H2 & P2). exists (n1 ++ n2)%list. split.
    + now rewrite H2, H1, app_assoc.
    + apply Forall_app. now split.
Qed.

Lemma extends_with_when P (b : bool) (m : M unit) :
  extends_with P m -> extends_with P (when b m).
Proof.
  destruct b; [auto | intros _; apply preserves_extends_with, preserves_ret].
Qed.

Lemma extends_with_for_each {A} P (l : list A) (body : A -> M unit) :
  (forall a, extends_with P (body a)) -> extends_with P (for_each l body).
Proof.
  intros H. induction l as [|a l IH]; simpl.
  - apply preserves_extends_with, preserves_ret.
  - apply extends_with_bind; auto.
Qed.

(** A loop stops at the first step that raises: the steps before it have
    run, the steps after it have not. *)
Lemma for_each_stops {A} (before : list A) (x : A) (after : list A)
    (body : A -> M unit) (e : exn) :
  (forall a, In a before -> returns (body a)) ->
  (forall w, body x w = (Raise e, w)) ->
  forall w, for_each (before ++ x :: after) body w
            = (Raise e, snd (for_each before body w)).
Proof.
  intros Hret Hx. induction before as [|a before IH]; intros w; simpl.
  - unfold bind. rewrite Hx. reflexivity.
  - unfold bind.
    rewrite (returns_unit (body a) w (Hret a (or_introl eq_refl))).
    apply IH. intros a' Ha'. apply Hret. now right.
Qed.

End ExtendsWith.

Section DerivationMore.
Context {Ext : Type} (C : Collaborators Ext).
Implicit Types (w : World Ext) (data g : PyDictT).

#[local] Abbreviation M := (@M Ext).

Lemma emit_event_extends_with (P : CacheEvent -> Prop) event :
  P event -> extends_with P (emit_event C event).
Proof.
  intros HP w. exists [event]. split; [apply emit_event_emitted | now constructor].
Qed.

Lemma monitor_incoming_data_returns ds (data : PyVal) :
  returns (_monitor_incoming_data C ds data).
Proof.
  unfold _monitor_incoming_data. apply returns_try_except. intros e. apply returns_ret.
Qed.

Lemma emit_cache_events_returns ds data :
  returns (_emit_cache_events_from_data C ds data).
Proof.
  unfold _emit_cache_events_from_data. apply returns_try_except. intros e.
  apply returns_ret.
Qed.

(** X1. The callback subscribed to the feed's pushes never raises, whatever
    the payload holds and whatever the quality monitor and the clock do. *)
Theorem push_callback_never_raises data w :
  fst (sportradar_quality_callback C data w) = Ok tt.
Proof.
  assert (H : returns (sportradar_quality_callback C data)).
  { unfold sportradar_quality_callback. apply returns_bind.
    - apply monitor_incoming_data_returns.
    - intros _. apply emit_cache_events_returns. }
  now rewrite (returns_unit _ w H).
Qed.

(** X2. For a payload with no "games" key the events are decided by two
    key tests alone: one ODDS_CHANGE (scope PATTERN, carrying the clock's
    timestamp) when "odds" or "bookmakers" is a key, then one INJURY_REPORT
    (scope RELATED) when "injuries" or "injury_reports" is a key; nothing
    else is emitted, in particular no score update and no state change. *)
Theorem events_of_payload_without_games ds data w :
  dict_mem "games" data = false ->
  emitted_events (snd (_emit_cache_events_from_data C ds data w))
  = (emitted_events w
     ++ shape_events ds data (fst (utcnow_isoformat C (ext w))))%list.
Proof.
  intros Hgames. unfold _emit_cache_events_from_data, shape_events.
  rewrite Hgames. unfold try_except, bind, when, ret, call_total.
  destruct (dict_mem "odds" data || dict_mem "bookmakers" data);
    destruct (dict_mem "injuries" data || dict_mem "injury_reports" data);
    simpl;
    repeat (destruct (utcnow_isoformat C (ext w)) as [now x]; simpl);
    repeat (rewrite emit_event_run; simpl);
    rewrite ?emit_event_emitted, <- ?app_assoc; simpl;
    rewrite ?app_nil_r; reflexivity.
Qed.

Lemma emit_for_game_derives ds data game :
  extends_with (derived_event_ok ds data) (emit_for_game C ds data game).
Proof.
  unfold emit_for_game.
  apply extends_with_bind; [apply preserves_extends_with; auto with frame|].
  intros gid. destruct (truthy gid) eqn:Hgid; simpl;
    [|apply preserves_extends_with; auto with frame].
  apply extends_with_bind; [apply preserves_extends_with; auto with frame|].
  intros hs.
  apply extends_with_bind; [apply preserves_extends_with; auto with frame|].
  intros aws.
  apply extends_with_bind; [|intros _].
  - apply extends_with_when, emit_event_extends_with.
    repeat split. simpl. eauto.
  - apply extends_with_bind; [apply preserves_extends_with; auto with frame|].
    intros st. apply extends_with_when, emit_event_extends_with.
    repeat split. simpl. eauto.
Qed.

(** X3. Every event derived from a payload names the data source and the
    sport attributed to the payload; a SCORE_UPDATE (scope RELATED) or a
    GAME_STATE_CHANGE (scope PATTERN) carries a game identifier that is
    true; an ODDS_CHANGE (PATTERN) or an INJURY_REPORT (RELATED) carries
    none; no DATA_SOURCE_UPDATE is ever derived. Events already with the bus
    stay as they are. *)
Theorem derived_events_are_well_formed ds data w :
  exists new,
    emitted_events (snd (_emit_cache_events_from_data C ds data w))
      = (emitted_events w ++ new)%list /\
    Forall (derived_event_ok ds data) new.
Proof.
  revert w. change (extends_with (derived_event_ok ds data)
                      (_emit_cache_events_from_data C ds data)).
  unfold _emit_cache_events_from_data.
  apply extends_with_try_except;
    [|intros e; apply preserves_extends_with; auto with frame].
  apply extends_with_bind; [|intros _; apply extends_with_bind; [|intros _]].
  - apply extends_with_when, extends_with_bind;
      [apply preserves_extends_with; auto with frame|].
    intros games. apply extends_with_for_each. intros game.
    apply emit_for_game_derives.
  - apply extends_with_when, extends_with_bind;
      [apply preserves_extends_with; auto with frame|].
    intros now. apply emit_event_extends_with. repeat split.
  - apply extends_with_when, emit_event_extends_with. repeat split.
Qed.

(** X4. An entry of the games list that is not a record stops the whole
    derivation: the method still returns, the records before the entry have
    been handled, and nothing after it is looked at, neither the remaining
    games nor the odds and injury keys of the same payload. *)
Theorem malformed_game_stops_derivation ds data before bad after w :
  dict_get "games" data = PyList (before ++ bad :: after) ->
  Forall (fun game => is_dict game = true) before ->
  is_dict bad = false ->
  _emit_cache_events_from_data C ds data w
  = (Ok tt, snd (for_each before (emit_for_game C ds data) w)).
Proof.
  intros Hgames Hbefore Hbad.
  destruct (dict_get_present "games" data _ Hgames) as [Hmem Hget]; [discriminate|].
  unfold _emit_cache_events_from_data. rewrite Hmem, Hget.
  unfold try_except, bind at 1. simpl when. unfold bind at 1. simpl py_iter.
  unfold eval at 1.
  rewrite (for_each_stops before bad after (emit_for_game C ds data) AttributeError).
  - reflexivity.
  - intros game Hgame. rewrite Forall_forall in Hbefore.
    specialize (Hbefore game Hgame). destruct game; try discriminate.
    apply emit_for_game_returns.
  - intros w0. destruct bad; try discriminate; reflexivity.
Qed.

End DerivationMore.

Lemma events_of_payload_without_games_witness :
  emitted_events
    (snd (_emit_cache_events_from_data feed_down ODDS_API bookmakers_payload
            manager_with_handlers))
  = [ {| event_type := ODDS_CHANGE; source := "odds_api"; sport := None;
         game_id := None; data_category := Some "odds";
         payload := Some [("timestamp", PyStr "2025-01-01T00:00:00+00:00")];
         invalidation_scope := PATTERN |} ].
Proof.
  apply (events_of_payload_without_games feed_down ODDS_API bookmakers_payload
           manager_with_handlers).
  reflexivity.
Defined.

Lemma malformed_game_stops_derivation_witness :
  dict_mem "odds" broken_games_payload = true /\
  _emit_cache_events_from_data feed_down SPORTRADAR broken_games_payload
    manager_with_handlers
  = (Ok tt, manager_with_handlers).
Proof.
  split; [reflexivity|].
  apply (malformed_game_stops_derivation feed_down SPORTRADAR broken_games_payload
           [] (PyStr "g1") [] manager_with_handlers).
  - reflexivity.
  - constructor.
  - reflexivity.
Defined.

(** ** Start-up and shutdown *)

Section ExtOnly.
Context {Ext : Type}.

#[local] Abbreviation M := (@M Ext).

Lemma ext_only_ret {A} (a : A) : ext_only (@ret Ext A a).
Proof. intros w. exists (ext w). now destruct w. Qed.

Lemma ext_only_call {A} (g : Ext -> outcome A * Ext) : ext_only (call g).
Proof. intros w. unfold call. destruct (g (ext w)) as [o x]. now exists x. Qed.

Lemma ext_only_bind {A B} (m : M A) (k : A -> M B) :
  ext_only m -> (forall a, ext_only (k a)) -> ext_only (bind m k).
Proof.
  intros Hm Hk w. unfold bind. destruct (Hm w) as [x Hx].
  destruct (m w) as [[a|e] w1]; simpl in *.
  - destruct (Hk a w1) as [x' Hx']. exists x'. now rewrite Hx', Hx.
  - now exists x.
Qed.

Lemma ext_only_when (b : bool) (m : M unit) : ext_only m -> ext_only (when b m).
Proof. destruct b; [auto | intros _; apply ext_only_ret]. Qed.

Lemma ext_only_for_each {A} (l : list A) (body : A -> M unit) :
  (forall a, ext_only (body a)) -> ext_only (for_each l body).
Proof.
  intros H. induction l as [|a l IH]; simpl.
  - apply ext_only_ret.
  - apply ext_only_bind; auto.
Qed.

Lemma ext_only_run {A} (m : M A) w :
  ext_only m -> exists o x, m w = (o, with_ext x w).
Proof.
  intros H. destruct (H w) as [x Hx]. exists (fst (m w)), x.
  rewrite <- Hx. apply surjective_pairing.
Qed.

End ExtOnly.

Section StartupProperties.
Context {Ext : Type} (C : Collaborators Ext) (L : Lifecycle Ext).
Implicit Types (w : World Ext).

#[local] Abbreviation M := (@M Ext).

Lemma core_components_ext_only : ext_only (_initialize_core_components L).
Proof.
  unfold _initialize_core_components.
  repeat (apply ext_only_bind; [apply ext_only_call | intros ?]).
  apply ext_only_call.
Qed.

Lemma quality_monitoring_ext_only : ext_only (_setup_data_quality_monitoring L).
Proof.
  unfold _setup_data_quality_monitoring.
  apply ext_only_bind; [apply ext_only_call | intros ?]. apply ext_only_call.
Qed.

Lemma push_feeds_ext_only :
  ext_only (fun w => when (api_key L (ext w))
                       (call (start_push_feeds L (active_sports w))) w).
Proof. intros w. apply ext_only_when, ext_only_call. Qed.

Lemma subscriptions_ext_only :
  ext_only (fun w => for_each (active_sports w)
                       (fun sport => call (subscribe_to_updates L sport)) w).
Proof. intros w. apply ext_only_for_each. intros sport. apply ext_only_call. Qed.

(** X6. [initialize] never raises, and for the manager it is all or
    nothing. When it answers [True] the flag is set and the game-state and
    score-update listeners have been appended to the bus's registry, in
    that order; when it answers [False] the flag is what it was before the
    call and no listener has been registered. Either way the manager's
    metrics, handlers and active sports are untouched: only the
    collaborators' state has moved. *)
Theorem initialize_all_or_nothing w :
  exists (b : bool) (x : Ext),
    initialize L w
    = (Ok b,
       if b then
         with_initialized true
           (with_listeners
              (event_listeners w ++ [(GAME_STATE_CHANGE, game_state_listener);
                                     (SCORE_UPDATE, score_update_listener)])
              (with_ext x w))
       else with_ext x w).
Proof.
  unfold initialize, try_except. unfold bind at 1.
  destruct (ext_only_run _ w core_components_ext_only) as ([[]|e] & x1 & ->);
    [|exists false, x1; reflexivity].
  unfold bind at 1.
  destruct (ext_only_run _ (with_ext x1 w) quality_monitoring_ext_only)
    as ([[]|e] & x2 & ->); [|exists false, x2; reflexivity].
  unfold bind at 1. unfold _setup_cross_source_reconciliation at 1.
  destruct (ext_only_run _ (with_ext x2 (with_ext x1 w))
              (ext_only_call (register_reconciliation_rule L)))
    as ([[]|e] & x3 & ->); [|exists false, x3; reflexivity].
  unfold bind at 1. unfold _start_background_services at 1. unfold bind at 1.
  destruct (ext_only_run _ (with_ext x3 (with_ext x2 (with_ext x1 w)))
              push_feeds_ext_only)
    as ([[]|e] & x4 & ->); [|exists false, x4; reflexivity].
  unfold _setup_realtime_quality_monitoring at 1. unfold bind at 1.
  destruct (ext_only_run _ (with_ext x4 (with_ext x3 (with_ext x2 (with_ext x1 w))))
              subscriptions_ext_only)
    as ([[]|e] & x5 & ->); [|exists false, x5; reflexivity].
  exists true, x5.
  unfold _setup_cache_event_listeners, bind, register_event_listener,
    set_initialized, ret, with_initialized, with_listeners. simpl.
  now rewrite <- app_assoc.
Qed.

Lemma ext_only_returns_run {A} (m : M A) w :
  ext_only m -> returns m -> exists a x, m w = (Ok a, with_ext x w).
Proof.
  intros He Hr. destruct (ext_only_run m w He) as (o & x & Hrun).
  destruct (Hr w) as [a Ha]. rewrite Hrun in Ha. simpl in Ha. subst o.
  now exists a, x.
Qed.

Lemma call_returns {A} (g : Ext -> outcome A * Ext) :
  (forall x, exists a, fst (g x) = Ok a) -> returns (call g).
Proof.
  intros H w. unfold call. destruct (H (ext w)) as [a Ha].
  destruct (g (ext w)) as [o x]. simpl in Ha. subst o. now exists a.
Qed.

Lemma call_returns_unit (g : Ext -> outcome unit * Ext) :
  (forall x, fst (g x) = Ok tt) -> returns (call g).
Proof. intros H. apply call_returns. intros x. now exists tt. Qed.

(** X7. When every start-up call on the collaborators returns, [initialize]
    answers [True] and the manager is ready, whatever the feed service
    answered about its own availability: a feed in demo mode does not stop
    the start-up. *)
Theorem initialize_succeeds_when_calls_return w :
  startup_returns L ->
  fst (initialize L w) = Ok true /\
  initialized (snd (initialize L w)) = true.
Proof.
  intros (H1 & H2 & H3 & H4 & H5 & H6 & H7 & H8 & H9).
  assert (R1 : returns (_initialize_core_components L)).
  { unfold _initialize_core_components.
    repeat (apply returns_bind; [|intros ?]);
      first [apply call_returns_unit; solve [auto] | apply call_returns; auto]. }
  assert (R2 : returns (_setup_data_quality_monitoring L)).
  { unfold _setup_data_quality_monitoring.
    apply returns_bind; [|intros ?]; apply call_returns_unit; auto. }
  assert (R3 : returns (call (register_reconciliation_rule L)))
    by (apply call_returns_unit; auto).
  assert (R4 : returns (fun w => when (api_key L (ext w))
                                   (call (start_push_feeds L (active_sports w))) w))
    by (intros w0; apply returns_when, call_returns_unit; auto).
  assert (R5 : returns (fun w => for_each (active_sports w)
                                   (fun sport => call (subscribe_to_updates L sport)) w))
    by (intros w0; apply returns_for_each; intros sport;
        apply call_returns_unit; auto).
  assert (Hfst : fst (initialize L w) = Ok true);
    [|destruct (initialize_all_or_nothing w) as (b & x & Hrun);
      rewrite Hrun in *; simpl in Hfst; injection Hfst as ->;
      split; reflexivity].
  unfold initialize, try_except. unfold bind at 1.
  destruct (ext_only_returns_run _ w core_components_ext_only R1) as ([] & x1 & ->).
  unfold bind at 1.
  destruct (ext_only_returns_run _ (with_ext x1 w) quality_monitoring_ext_only R2)
    as ([] & x2 & ->).
  unfold bind at 1. unfold _setup_cross_source_reconciliation at 1.
  destruct (ext_only_returns_run _ (with_ext x2 (with_ext x1 w))
              (ext_only_call (register_reconciliation_rule L)) R3)
    as ([] & x3 & ->).
  unfold bind at 1. unfold _start_background_services at 1. unfold bind at 1.
  destruct (ext_only_returns_run _ (with_ext x3 (with_ext x2 (with_ext x1 w)))
              push_feeds_ext_only R4) as ([] & x4 & ->).
  unfold _setup_realtime_quality_monitoring at 1. unfold bind at 1.
  destruct (ext_only_returns_run _
              (with_ext x4 (with_ext x3 (with_ext x2 (with_ext x1 w))))
              subscriptions_ext_only R5) as ([] & x5 & ->).
  reflexivity.
Qed.

(** X8. [close] either returns with the flag cleared, or raises what a
    collaborator's [close] raised and leaves the flag as it was. In both
    cases the listeners registered with the bus, the alert handlers and
    the metrics stay: a manager that is closed and initialised again has
    its listeners registered twice. *)
Theorem close_clears_flag_or_raises w :
  exists x,
    close L w = (Ok tt, with_initialized false (with_ext x w)) \/
    exists e, close L w = (Raise e, with_ext x w).
Proof.
  assert (H : exists o x,
             close L w
             = (o, match o with
                   | Ok _ => with_initialized false (with_ext x w)
                   | Raise _ => with_ext x w
                   end)).
  { unfold close. unfold bind at 1.
    destruct (ext_only_run _ w (ext_only_call (sportradar_close L)))
      as ([[]|e] & x1 & ->); [|exists (Raise e), x1; reflexivity].
    unfold bind at 1.
    destruct (ext_only_run _ (with_ext x1 w) (ext_only_call (pipeline_close L)))
      as ([[]|e] & x2 & ->); [|exists (Raise e), x2; reflexivity].
    unfold bind at 1.
    destruct (ext_only_run _ (with_ext x2 (with_ext x1 w))
                (ext_only_call (cache_close L)))
      as ([[]|e] & x3 & ->); [|exists (Raise e), x3; reflexivity].
    unfold bind at 1.
    destruct (ext_only_run _ (with_ext x3 (with_ext x2 (with_ext x1 w)))
                (ext_only_call (monitor_close L)))
      as ([[]|e] & x4 & ->); [|exists (Raise e), x4; reflexivity].
    exists (Ok tt), x4. reflexivity. }
  destruct H as ([[]|e] & x & ->); exists x; [left | right; exists e]; reflexivity.
Qed.

Lemma dispatch_cons event tl ls w :
  dispatch C event (tl :: ls) w
  = bind (when (EventType_eqb (fst tl) (event_type event))
            (try_except (run_listener C (snd tl) event) (fun _ => ret tt)))
         (fun _ => dispatch C event ls) w.
Proof. reflexivity. Qed.

Lemma dispatch_score_update event ls :
  registered_by_manager ls ->
  event_type event = SCORE_UPDATE ->
  forall w, exists n,
    dispatch C event ls w
    = (Ok tt, with_metrics (set_total_requests n (integration_metrics w)) w) /\
    n = total_requests (integration_metrics w) + score_listeners ls.
Proof.
  intros Hreg Hty.
  induction Hreg as [|tl ls [-> | ->] _ IH]; intros w.
  - exists (total_requests (integration_metrics w)). split.
    + destruct w as [i a h [t c d x r] l e k y]. reflexivity.
    + unfold score_listeners. simpl. lia.
  - rewrite dispatch_cons, Hty. simpl. destruct (IH w) as (n & Hrun & Hn).
    exists n. split; [exact Hrun|]. rewrite Hn. unfold score_listeners. simpl. lia.
  - rewrite dispatch_cons, Hty. simpl fst. simpl snd. simpl EventType_eqb.
    unfold when, bind, try_except, run_listener, incr_total_requests, bind,
      get_metrics, put_metrics.
    destruct (IH (with_metrics
                    (set_total_requests (total_requests (integration_metrics w) + 1)
                       (integration_metrics w)) w)) as (n & Hrun & Hn).
    exists n. split; [exact Hrun|]. rewrite Hn. unfold score_listeners. simpl.
    lia.
Qed.

(** X9. With the manager's listeners on the bus, a score-update event adds
    to the request counter one for every time the score-update listener
    was registered: once after one start-up, twice when the listeners were
    set up twice. The other metrics are not touched. *)
Theorem score_update_counted_per_registration event w :
  registered_by_manager (event_listeners w) ->
  event_type event = SCORE_UPDATE ->
  let m' := integration_metrics (snd (emit_event C event w)) in
  total_requests m'
    = total_requests (integration_metrics w) + score_listeners (event_listeners w) /\
  cache_hits m' = cache_hits (integration_metrics w) /\
  data_quality_violations m' = data_quality_violations (integration_metrics w) /\
  cross_source_discrepancies m' = cross_source_discrepancies (integration_metrics w) /\
  avg_response_time m' = avg_response_time (integration_metrics w).
Proof.
  intros Hreg Hty. cbv zeta. unfold emit_event.
  destruct (dispatch_score_update event (event_listeners w) Hreg Hty
              (with_emitted (emitted_events w ++ [event]) w)) as (n & -> & ->).
  repeat split.
Qed.

End StartupProperties.

Lemma initialize_succeeds_when_calls_return_witness :
  fst (initialize quiet_lifecycle (new_manager tt)) = Ok true /\
  initialized (snd (initialize quiet_lifecycle (new_manager tt))) = true.
Proof.
  apply (initialize_succeeds_when_calls_return quiet_lifecycle (new_manager tt)).
  repeat split. intros x. now exists (PyBool false).
Defined.

(** After two start-ups, one score update counts as two requests. *)
Lemma score_update_counted_per_registration_witness :
  total_requests
    (integration_metrics
       (snd (emit_event feed_down g1_score_update
               (snd (initialize quiet_lifecycle
                       (snd (initialize quiet_lifecycle (new_manager tt)))))))) = 2.
Proof.
  refine (proj1 (score_update_counted_per_registration feed_down g1_score_update
                   (snd (initialize quiet_lifecycle
                           (snd (initialize quiet_lifecycle (new_manager tt)))))
                   _ eq_refl)).
  unfold registered_by_manager. simpl. auto 6.
Defined.

(** ** Registering a handler *)

Section Registration.
Context {Ext : Type} (C : Collaborators Ext).
Implicit Types (w : World Ext) (h : Handler Ext) (v : QualityViolation).

(** X10. A handler registered with [register_quality_alert_handler] is
    called at the next violation, once, after every handler registered
    before it: the call record grows by one call per earlier handler and
    then the call of the new handler, holding its outcome. *)
Theorem registered_handler_is_called_last h v w :
  let n := length (quality_alert_handlers w) in
  let w1 := snd (register_quality_alert_handler h w) in
  exists calls o s,
    handler_calls (snd (_handle_quality_violation C v w1))
      = (handler_calls w ++ calls ++ [(n, o)])%list /\
    map fst calls = seq 0 n /\
    o = fst (h v s).
Proof.
  cbv zeta. rewrite handle_quality_violation_run. cbv zeta.
  set (w1 := snd (register_quality_alert_handler h w)).
  set (w2 := if is_error_or_critical (severity v) then _ else _).
  assert (Hcalls2 : handler_calls w2 = handler_calls w).
  { unfold w2. destruct (is_error_or_critical (severity v)); [|reflexivity].
    rewrite (emit_event_preserves C handler_calls); auto with frame. }
  destruct (notify_handlers_calls (quality_alert_handlers w1) v 0%nat w2)
    as (calls' & Hcalls & Hidx & Hout).
  change (quality_alert_handlers w1) with (quality_alert_handlers w ++ [h])%list in *.
  rewrite length_app in Hidx. simpl length in Hidx.
  rewrite Nat.add_1_r, seq_S in Hidx. simpl in Hidx.
  destruct (exists_last (l := calls')) as (calls & [j o] & ->).
  { intros ->. simpl in Hidx. now apply app_cons_not_nil in Hidx. }
  rewrite map_app in Hidx. simpl in Hidx. apply app_inj_tail in Hidx.
  destruct Hidx as [Hidx ->].
  destruct (Hout (length (quality_alert_handlers w)) o) as (h' & s & Hnth & Ho).
  { apply in_or_app. right. now left. }
  rewrite Nat.sub_0_r, nth_error_app2, Nat.sub_diag in Hnth by lia.
  injection Hnth as <-.
  exists calls, o, s. rewrite Hcalls, Hcalls2. auto.
Qed.

End Registration.

(** ** The read path, beyond the fallback *)

Section ReadPathMore.
Context {Ext : Type} (C : Collaborators Ext).
Implicit Types (w : World Ext) (sport : SportType).

#[local] Abbreviation M := (@M Ext).

Lemma ext_only_fold_each {A S} (l : list A) (body : S -> A -> M S) :
  (forall acc a, ext_only (body acc a)) -> forall acc, ext_only (fold_each l acc body).
Proof.
  intros H. induction l as [|a l IH]; intros acc; simpl.
  - apply ext_only_ret.
  - apply ext_only_bind; auto.
Qed.

Lemma ext_only_call_total {A} (g : Ext -> A * Ext) : ext_only (call_total g).
Proof. intros w. unfold call_total. destruct (g (ext w)) as [a x]. now exists x. Qed.

(** The fallback acts on the collaborators only: it looks up the cache and
    reads the clock. *)
Lemma get_fallback_data_ext_only sports : ext_only (_get_fallback_data C sports).
Proof.
  unfold _get_fallback_data. apply ext_only_bind.
  - apply ext_only_fold_each. intros acc sport. unfold fallback_turn.
    apply ext_only_bind; [apply ext_only_call|]. intros cached.
    destruct (truthy cached); apply ext_only_ret.
  - intros fd. apply ext_only_bind; [apply ext_only_call_total|].
    intros now. apply ext_only_ret.
Qed.

(** X11. A comprehensive fetch that fails at the feed is counted as a
    request and is not timed. When the feed raises and the cache lookup
    returns, the fetch returns the fallback envelope; the request counter
    is one higher; the average response time, the other counters and
    everything else the manager keeps are as before, and only the
    collaborators' state has moved. A later average therefore divides by a
    counter that includes the failed request. The monitor is not called on
    this path; the feed and the cache act on their own state only, a push
    update delivered meanwhile being a call of its own. *)
Theorem failed_fetch_is_counted_but_not_timed
    (sport_opt : option SportType) (e : exn) w :
  fst (get_all_sports_data C (sports_to_fetch sport_opt w) (snd (time_time C (ext w))))
  = Raise e ->
  cache_lookup_returns C ->
  exists fd stamp x,
    get_comprehensive_sports_data C sport_opt w
    = (Ok (Envelope (PyDict fd) (fallback_metadata stamp)),
       with_ext x
         (with_metrics
            (set_total_requests (total_requests (integration_metrics w) + 1)
               (integration_metrics w)) w)).
Proof.
  intros Hfeed Hcache.
  unfold get_comprehensive_sports_data, bind, call_total.
  destruct (time_time C (ext w)) as [start x0]. simpl in Hfeed.
  change (sports_to_fetch sport_opt (with_ext x0 w)) with (sports_to_fetch sport_opt w).
  unfold try_except, fetch_comprehensive, bind at 1, incr_total_requests, bind,
    get_metrics, put_metrics, call. simpl.
  destruct (get_all_sports_data C (sports_to_fetch sport_opt w) x0) as [o x1].
  simpl in Hfeed. subst o.
  match goal with
  | |- context [_get_fallback_data C ?sports ?w1] =>
      destruct (get_fallback_data_returns C sports w1 Hcache)
        as (fd & stamp & w' & Hrun & _);
      destruct (get_fallback_data_ext_only sports w1) as [x Hx]
  end.
  rewrite Hrun in *. simpl in Hx. subst w'.
  exists fd, stamp, x. reflexivity.
Qed.

(** X12. When the feed fails and the cache lookup of the fallback fails
    too, the comprehensive fetch raises what the cache raised: the fallback
    is not itself protected. *)
Theorem fallback_failure_propagates (sport_opt : option SportType) (e0 : exn) w :
  (forall sports x, exists e x', get_all_sports_data C sports x = (Raise e, x')) ->
  (forall key x, exists x', cache_get C key x = (Raise e0, x')) ->
  sports_to_fetch sport_opt w <> [] ->
  fst (get_comprehensive_sports_data C sport_opt w) = Raise e0.
Proof.
  intros Hfeed Hcache Hsports.
  unfold get_comprehensive_sports_data, bind, call_total.
  destruct (time_time C (ext w)) as [start x].
  change (sports_to_fetch sport_opt (with_ext x w)) with (sports_to_fetch sport_opt w).
  destruct (sports_to_fetch sport_opt w) as [|sport sports]; [congruence|].
  unfold try_except, fetch_comprehensive, bind at 1, incr_total_requests, bind,
    get_metrics, put_metrics, call. simpl.
  destruct (Hfeed (sport :: sports) x) as (e & x' & ->). simpl.
  unfold _get_fallback_data, bind. simpl. unfold bind, fallback_turn, bind, call.
  simpl. destruct (Hcache (fallback_key sport) x') as (x'' & ->). reflexivity.
Qed.

(** X13. A feed answer that is not a dict ([None], a list, a string) is not
    served: with a cache that answers, the fetch returns the fallback
    envelope, although no collaborator raised. *)
Theorem non_dict_answer_served_as_fallback (sport_opt : option SportType) w :
  feed_answers_no_dict C ->
  cache_lookup_returns C ->
  exists fd stamp,
    fst (get_comprehensive_sports_data C sport_opt w)
      = Ok (Envelope (PyDict fd) (fallback_metadata stamp)) /\
    from_cache_or_placeholder C (sports_to_fetch sport_opt w) fd.
Proof.
  intros Hfeed Hcache.
  unfold get_comprehensive_sports_data, bind, call_total.
  destruct (time_time C (ext w)) as [start x].
  change (sports_to_fetch sport_opt (with_ext x w)) with (sports_to_fetch sport_opt w).
  unfold try_except, fetch_comprehensive, bind at 1, incr_total_requests, bind,
    get_metrics, put_metrics, call. simpl.
  destruct (Hfeed (sports_to_fetch sport_opt w) x) as (v & x' & -> & Hv). simpl.
  destruct v; try discriminate; simpl;
    match goal with
    | |- context [_get_fallback_data C ?sports ?w1] =>
        destruct (get_fallback_data_returns C sports w1 Hcache)
          as (fd & stamp & w' & -> & Hfd)
    end; exists fd, stamp; split; auto.
Qed.

(** X14. The answer of the live-scores fetch follows the feed's answer
    alone. When the feed raises, the answer is the error record holding the
    text of the exception; when the feed answers with nothing true ([None],
    an empty record), it is the error record "Live scores not available";
    in both cases the monitor is not called and nothing the manager keeps
    has changed. When the feed answers with data, the answer is the
    envelope holding that very data, marked as quality-checked, whatever
    becomes of the monitoring and of the cache warming. In no case does the
    fetch raise. *)
Theorem live_scores_answer_follows_feed sport w :
  let r := get_live_scores_with_quality_monitoring C sport w in
  (forall e x, get_live_scores C sport (ext w) = (Raise e, x) ->
     r = (Ok (ErrorResult (str_exn e)), with_ext x w)) /\
  (forall v x, get_live_scores C sport (ext w) = (Ok v, x) -> truthy v = false ->
     r = (Ok (ErrorResult "Live scores not available"), with_ext x w)) /\
  (forall v x, get_live_scores C sport (ext w) = (Ok v, x) -> truthy v = true ->
     exists stamp,
       fst r = Ok (Envelope v (live_metadata stamp)) /\
       md_quality_checked (live_metadata stamp) = Some true).
Proof.
  cbv zeta. unfold get_live_scores_with_quality_monitoring, try_except.
  split; [|split].
  - intros e x Hfeed. unfold bind, call. rewrite Hfeed. reflexivity.
  - intros v x Hfeed Hv. unfold bind at 1. unfold call. rewrite Hfeed, Hv.
    reflexivity.
  - intros v x Hfeed Hv. unfold bind at 1. unfold call. rewrite Hfeed, Hv.
    unfold bind at 1.
    destruct (monitor_incoming_data_returns C SPORTRADAR v (with_ext x w)) as [[] Hmon].
    destruct (_monitor_incoming_data C SPORTRADAR v (with_ext x w)) as [o w1].
    simpl in Hmon. subst o. unfold bind at 1.
    assert (Hwarm : returns (_warm_related_caches C sport v)).
    { unfold _warm_related_caches. apply returns_try_except. intros e. apply returns_ret. }
    destruct (Hwarm w1) as [[] Hw].
    destruct (_warm_related_caches C sport v w1) as [o w2].
    simpl in Hw. subst o. unfold bind, call_total, ret.
    destruct (utcnow_isoformat C (ext w2)) as [stamp x2].
    exists stamp. split; reflexivity.
Qed.

End ReadPathMore.

Lemma failed_fetch_is_counted_but_not_timed_witness :
  exists fd stamp x,
    get_comprehensive_sports_data feed_down (Some NBA) manager_with_handlers
    = (Ok (Envelope (PyDict fd) (fallback_metadata stamp)),
       with_ext x
         (with_metrics
            (set_total_requests
               (total_requests (integration_metrics manager_with_handlers) + 1)
               (integration_metrics manager_with_handlers))
            manager_with_handlers)).
Proof.
  apply (failed_fetch_is_counted_but_not_timed feed_down (Some NBA)
           (PyExc "ConnectionError" "feed down") manager_with_handlers).
  - reflexivity.
  - intros key x. exists PyNone, x. reflexivity.
Defined.

Lemma live_scores_answer_follows_feed_witness :
  get_live_scores_with_quality_monitoring feed_down NHL (new_manager tt)
  = (Ok (ErrorResult "feed down"), new_manager tt).
Proof.
  apply (proj1 (live_scores_answer_follows_feed feed_down NHL (new_manager tt))
           (PyExc "ConnectionError" "feed down") tt).
  reflexivity.
Defined.

Lemma fallback_failure_propagates_witness :
  fst (get_comprehensive_sports_data all_down None (new_manager tt)) = Raise cache_error.
Proof.
  apply (fallback_failure_propagates all_down None cache_error (new_manager tt)).
  - intros sports x. eexists. exists x. reflexivity.
  - intros key x. exists x. reflexivity.
  - discriminate.
Defined.

Lemma non_dict_answer_served_as_fallback_witness :
  exists fd stamp,
    fst (get_comprehensive_sports_data feed_answers_none (Some NHL) (new_manager tt))
      = Ok (Envelope (PyDict fd) (fallback_metadata stamp)) /\
    from_cache_or_placeholder feed_answers_none
      (sports_to_fetch (Some NHL) (new_manager tt)) fd.
Proof.
  apply (non_dict_answer_served_as_fallback feed_answers_none (Some NHL) (new_manager tt)).
  - intros sports x. exists PyNone, x. split; reflexivity.
  - intros key x. exists PyNone, x. reflexivity.
Defined.

Section PlayerFetch.
Context {Ext : Type} (C : Collaborators Ext).
Implicit Types (w : World Ext) (sport : SportType).

(** X15. The early exits of the player fetch, none of which calls the
    monitor. A fetch that hits the cache (the lookup returns a true value)
    is served from the cache alone: the answer is the cached value with
    cache status "hit"; one request and one hit are counted and the average
    response time is not updated; of the collaborators only the clock and
    the cache lookup have acted. A fetch whose cache lookup raises, or that
    misses the cache and whose feed raises or has nothing true to give,
    answers an error record (the text of the exception, or "Player data not
    available") and counts one request and nothing else. *)
Theorem player_fetch_early_exits sport (player_id : string)
    (user_id : option string) w :
  let lookup := get_sport_data C (SportType_value sport) "player_stats"
                  (player_key sport player_id) user_id
                  (snd (time_time C (ext w))) in
  let counted := set_total_requests (total_requests (integration_metrics w) + 1)
                   (integration_metrics w) in
  let r := get_enhanced_player_data C sport player_id user_id w in
  (forall v x, lookup = (Ok v, x) -> truthy v = true ->
     r = (Ok (Envelope v (hit_metadata (fst (utcnow_isoformat C x)))),
          with_ext (snd (utcnow_isoformat C x))
            (with_metrics
               (set_cache_hits (cache_hits (integration_metrics w) + 1) counted) w))) /\
  (forall e x, lookup = (Raise e, x) ->
     r = (Ok (ErrorResult (str_exn e)), with_ext x (with_metrics counted w))) /\
  (forall v x, lookup = (Ok v, x) -> truthy v = false ->
     (forall e x', get_player_stats C sport player_id x = (Raise e, x') ->
        r = (Ok (ErrorResult (str_exn e)), with_ext x' (with_metrics counted w))) /\
     (forall p x', get_player_stats C sport player_id x = (Ok p, x') ->
        truthy p = false ->
        r = (Ok (ErrorResult "Player data not available"),
             with_ext x' (with_metrics counted w)))).
Proof.
  cbv zeta.
  unfold get_enhanced_player_data, try_except, bind, call_total, call,
    incr_total_requests, _update_response_time_metric, bind, get_metrics,
    put_metrics, ret.
  destruct (time_time C (ext w)) as [start x0]. simpl.
  split; [|split].
  - intros v x -> Hv. simpl. rewrite Hv. simpl.
    destruct (utcnow_isoformat C x) as [stamp x2]. reflexivity.
  - intros e x ->. reflexivity.
  - intros v x -> Hv. simpl. rewrite Hv. split.
    + intros e x' Hfeed. simpl. rewrite Hfeed. reflexivity.
    + intros p x' Hfeed Hp. simpl. rewrite Hfeed. simpl. rewrite Hp. reflexivity.
Qed.

End PlayerFetch.

(** ** Pure helpers *)

Lemma string_app_assoc (a b c : string) : (a ++ b) ++ c = a ++ b ++ c.
Proof. induction a as [|ch a IH]; simpl; [reflexivity | now rewrite IH]. Qed.

Lemma occurs_suffix (prefix keyword text : string) :
  occurs (prefix ++ keyword) text -> occurs keyword text.
Proof.
  intros (before & after & ->). exists (before ++ prefix), after.
  now rewrite !string_app_assoc.
Qed.

Lemma contains_suffix (prefix keyword text : string) :
  contains (prefix ++ keyword) text = true -> contains keyword text = true.
Proof. rewrite !contains_occurs. apply occurs_suffix. Qed.

(** X17. The indicators "american_football" and "ice_hockey" never decide
    the attribution: every text that holds one of them holds "football" or
    "hockey" too, so the loop over the table gives the same sport with the
    two long keywords left out. *)
Theorem long_indicators_never_decide (data_str : string) :
  first_sport sport_indicators data_str
  = first_sport short_sport_indicators data_str.
Proof.
  unfold sport_indicators, short_sport_indicators, first_sport, any_indicator, existsb.
  pose proof (contains_suffix "american_" "football" data_str) as Hf.
  pose proof (contains_suffix "ice_" "hockey" data_str) as Hh.
  simpl append in Hf, Hh.
  destruct (contains "american_football" data_str);
    destruct (contains "ice_hockey" data_str);
    try rewrite (Hf eq_refl); try rewrite (Hh eq_refl);
    rewrite ?orb_false_r, ?orb_true_r, ?orb_true_l; reflexivity.
Qed.

Lemma dict_get_default_absent (k : string) (default : PyVal) (d : PyDictT) :
  dict_mem k d = false -> dict_get_default k default d = default.
Proof.
  induction d as [|[k' v'] d IH]; simpl; [reflexivity|].
  destruct (String.eqb k k'); [discriminate | exact IH].
Qed.

(** X18. For a game record without team entries the keys to warm are built
    from the text "None": the two team-statistics keys are the same key,
    "team_stats_<sport>_None". *)
Theorem warm_keys_of_game_without_teams sport (g : PyDictT) (gid : PyVal) (id : string) :
  dict_mem "home_team" g = false ->
  dict_mem "away_team" g = false ->
  py_str gid = Ok id ->
  warm_patterns sport (PyDict g) gid
  = Ok [ "game_details_" ++ SportType_value sport ++ "_" ++ id;
         "player_props_" ++ SportType_value sport ++ "_" ++ id;
         "team_stats_" ++ SportType_value sport ++ "_None";
         "team_stats_" ++ SportType_value sport ++ "_None" ].
Proof.
  intros Hhome Haway Hid. unfold warm_patterns, py_get_default.
  rewrite Hid, !dict_get_default_absent by assumption. reflexivity.
Qed.

Lemma warm_keys_of_game_without_teams_witness :
  warm_patterns NBA (PyDict [("id", PyInt 7)]) (PyInt 7)
  = Ok [ "game_details_nba_7"; "player_props_nba_7";
         "team_stats_nba_None"; "team_stats_nba_None" ].
Proof.
  apply (warm_keys_of_game_without_teams NBA [("id", PyInt 7)] (PyInt 7) "7");
    reflexivity.
Defined.

(** X19. The cache lifetime is defined for every sport and every category
    text ([int] never fails on the product) and lies between 24 and 10800
    seconds. *)
Theorem ttl_is_bounded (sport : SportType) (data_type : string) :
  exists ttl,
    _get_sport_specific_cache_ttl sport data_type = Ok ttl /\ 24 <= ttl <= 10800.
Proof.
  unfold _get_sport_specific_cache_ttl.
  rewrite lookup_ttl_spec_base. unfold spec_base.
  repeat match goal with
         | |- context [String.eqb data_type ?k] => destruct (String.eqb data_type k)
         end;
    destruct sport; (eexists; split; [vm_compute; reflexivity | lia]).
Qed.

(** ** The player fetch against an in-memory cache *)

Lemma slot_eqb_refl (slot : CacheSlot) : slot_eqb slot slot = true.
Proof.
  destruct slot as [[[s c] k] [u|]]; simpl; now rewrite !String.eqb_refl.
Qed.

#[local] Arguments slot_eqb : simpl never.

(** X20. With a cache that returns what was stored in a slot, a player
    fetch that misses stores the feed's data in the very slot it looked up:
    the same fetch made again is a hit that returns the same data from the
    cache and does not call the feed a second time. Two requests and one
    hit are counted. *)
Theorem player_fetch_miss_then_hit (sport : SportType) (player_id : string)
    (user_id : option string) (player_data : PyVal) (w : World Memory) :
  truthy player_data = true ->
  truthy (store_lookup (SportType_value sport, "player_stats",
                        player_key sport player_id, user_id)
            (store (ext w))) = false ->
  let fetch := get_enhanced_player_data (memory_backed player_data)
                 sport player_id user_id in
  let first := fetch w in
  let second := fetch (snd first) in
  (exists md, fst first = Ok (Envelope player_data md)
              /\ md_cache_status md = Some "miss") /\
  (exists md, fst second = Ok (Envelope player_data md)
              /\ md_cache_status md = Some "hit") /\
  feed_calls (ext (snd second)) = S (feed_calls (ext w)) /\
  total_requests (integration_metrics (snd second))
    = total_requests (integration_metrics w) + 2 /\
  cache_hits (integration_metrics (snd second))
    = cache_hits (integration_metrics w) + 1.
Proof.
  intros Hdata Hmiss. cbv zeta.
  unfold get_enhanced_player_data, try_except, bind, call_total, call,
    incr_total_requests, _update_response_time_metric, bind, get_metrics,
    put_metrics, ret.
  simpl. rewrite Hmiss. simpl. rewrite Hdata. simpl.
  rewrite slot_eqb_refl, Hdata. simpl.
  repeat split; try (eexists; split; reflexivity); lia.
Qed.

Lemma player_fetch_miss_then_hit_witness :
  feed_calls
    (ext (snd (get_enhanced_player_data (memory_backed (PyDict [("hits", PyInt 2)]))
                 NBA "p42" (Some "u1")
                 (snd (get_enhanced_player_data
                         (memory_backed (PyDict [("hits", PyInt 2)]))
                         NBA "p42" (Some "u1")
                         (new_manager {| store := []; feed_calls := 0 |}))))))
  = 1%nat.
Proof.
  refine (proj1 (proj2 (proj2 (player_fetch_miss_then_hit NBA "p42" (Some "u1")
                                 (PyDict [("hits", PyInt 2)])
                                 (new_manager {| store := []; feed_calls := 0 |})
                                 eq_refl eq_refl)))).
Defined.

(** A fetch served from a slot that already holds the player's data: the
    feed is not called. *)
Lemma player_fetch_early_exits_witness :
  get_enhanced_player_data (memory_backed PyNone) MLB "p7" None
    (new_manager
       {| store := [(("mlb", "player_stats", "enhanced_player_mlb_p7", None),
                     PyDict [("hits", PyInt 3)])];
          feed_calls := 0 |})
  = (Ok (Envelope (PyDict [("hits", PyInt 3)])
           (hit_metadata "2025-01-01T00:00:00+00:00")),
     with_metrics (set_cache_hits 1 (set_total_requests 1 initial_metrics))
       (new_manager
          {| store := [(("mlb", "player_stats", "enhanced_player_mlb_p7", None),
                        PyDict [("hits", PyInt 3)])];
             feed_calls := 0 |})).
Proof.
  apply (proj1 (player_fetch_early_exits (memory_backed PyNone) MLB "p7" None
                  (new_manager
                     {| store := [(("mlb", "player_stats", "enhanced_player_mlb_p7", None),
                                   PyDict [("hits", PyInt 3)])];
                        feed_calls := 0 |}))
           (PyDict [("hits", PyInt 3)])
           {| store := [(("mlb", "player_stats", "enhanced_player_mlb_p7", None),
                         PyDict [("hits", PyInt 3)])];
              feed_calls := 0 |}).
  - reflexivity.
  - reflexivity.
Defined.
